(** * ClimWIP diagnostics: a shallow embedding of [functions/diagnostics.py]

    The development follows the Python module top to bottom:
    - [PyStr]: the [str] and [os.path] operations the module calls;
    - [Py]: dynamically typed keyword values, exceptions and the
      state-and-error monad in which the effectful functions run;
    - [Xr]: labelled arrays ([xarray.DataArray]) over cells that are
      either a rational or missing (NaN);
    - the functions of the module, under their source names;
    - the properties of the module. *)

From Stdlib Require Import String Ascii List ZArith QArith Bool Lia.
From Stdlib Require Import DecimalString Sorted.
Import ListNotations.

Local Open Scope string_scope.

(** ** Strings and paths *)

Module PyStr.

(** [str.lower] on ASCII text. *)
Definition lower_ascii (c : ascii) : ascii :=
  let n := nat_of_ascii c in
  if ((65 <=? n) && (n <=? 90))%nat then ascii_of_nat (n + 32) else c.

Fixpoint lower (s : string) : string :=
  match s with
  | EmptyString => EmptyString
  | String c s' => String (lower_ascii c) (lower s')
  end.

(** [sep.join(parts)]. *)
Definition join (sep : string) (parts : list string) : string :=
  String.concat sep parts.

(** [s.replace(old, new)] for a non-empty [old]: the occurrences are taken
    left to right and do not overlap.  [skip] counts the characters of a
    matched occurrence that remain to be dropped. *)
Fixpoint replace_go (old new s : string) (skip : nat) : string :=
  match s with
  | EmptyString => EmptyString
  | String c s' =>
      match skip with
      | S k => replace_go old new s' k
      | O =>
          if String.prefix old s
          then new ++ replace_go old new s' (String.length old - 1)
          else String c (replace_go old new s' 0)
      end
  end.

(** With an empty [old], Python puts [new] around every character. *)
Fixpoint intersperse (new s : string) : string :=
  match s with
  | EmptyString => new
  | String c s' => new ++ String c (intersperse new s')
  end.

Definition replace (old new s : string) : string :=
  match old with
  | EmptyString => intersperse new s
  | _ => replace_go old new s 0
  end.

Definition is_slash (c : ascii) : bool := Ascii.eqb c "/"%char.

(** [(p[:i], p[i:])] with [i = p.rfind('/') + 1]. *)
Fixpoint split_last_slash (p : string) : string * string :=
  match p with
  | EmptyString => (EmptyString, EmptyString)
  | String c p' =>
      let (h, t) := split_last_slash p' in
      match h with
      | EmptyString =>
          if is_slash c then (String c EmptyString, t)
          else (EmptyString, String c t)
      | _ => (String c h, t)
      end
  end.

(** [os.path.basename]. *)
Definition basename (p : string) : string := snd (split_last_slash p).

Fixpoint all_slashes (s : string) : bool :=
  match s with
  | EmptyString => true
  | String c s' => is_slash c && all_slashes s'
  end.

Fixpoint rstrip_slash (s : string) : string :=
  match s with
  | EmptyString => EmptyString
  | String c s' =>
      match rstrip_slash s' with
      | EmptyString => if is_slash c then EmptyString else String c EmptyString
      | r => String c r
      end
  end.

(** [os.path.split]. *)
Definition path_split (p : string) : string * string :=
  let (h, t) := split_last_slash p in
  (if all_slashes h then h else rstrip_slash h, t).

Fixpoint ends_with_slash (s : string) : bool :=
  match s with
  | EmptyString => false
  | String c EmptyString => is_slash c
  | String _ s' => ends_with_slash s'
  end.

Definition starts_with_slash (s : string) : bool :=
  match s with
  | String c _ => is_slash c
  | EmptyString => false
  end.

(** [os.path.join(a, b)] (POSIX). *)
Definition path_join (a b : string) : string :=
  if starts_with_slash b then b
  else match a with
       | EmptyString => b
       | _ => if ends_with_slash a then a ++ b else a ++ "/" ++ b
       end.

(** [str(n)] for an integer. *)
Definition of_Z (z : Z) : string := NilZero.string_of_int (Z.to_int z).

End PyStr.


(** ** Python values, exceptions, keyword arguments *)

Module Py.

(** The values a caller can pass as keyword arguments. *)
#[warnings="-register-all"]
Inductive pyval : Type :=
| VNone
| VBool (b : bool)
| VInt (z : Z)
| VStr (s : string)
| VList (l : list pyval)
| VTuple (l : list pyval).

Inductive exn : Type :=
| KeyError (key : string)
| TypeError (msg : string)
| IndexError (msg : string)
| ValueError (msg : string)
| NotImplementedError (msg : string)
| AssertionError (msg : string)
| AttributeError (msg : string)
| FileNotFoundError (path : string)
| LibraryError (msg : string).

(** Pure fallible computations. *)
Definition exc (A : Type) : Type := (exn + A)%type.
Definition ok {A} (a : A) : exc A := inr a.
Definition throw {A} (e : exn) : exc A := inl e.
Definition ebind {A B} (m : exc A) (k : A -> exc B) : exc B :=
  match m with
  | inl e => inl e
  | inr a => k a
  end.

(** [repr] and [str].  The quoting of [repr] is the one Python uses for
    strings without quotes, backslashes or control characters. *)
Fixpoint py_repr (v : pyval) : string :=
  match v with
  | VNone => "None"
  | VBool true => "True"
  | VBool false => "False"
  | VInt z => PyStr.of_Z z
  | VStr s => "'" ++ s ++ "'"
  | VList l => "[" ++ PyStr.join ", " (map py_repr l) ++ "]"
  | VTuple [x] => "(" ++ py_repr x ++ ",)"
  | VTuple l => "(" ++ PyStr.join ", " (map py_repr l) ++ ")"
  end.

Definition py_str (v : pyval) : string :=
  match v with
  | VStr s => s
  | _ => py_repr v
  end.

(** [v == 'text'] for a string literal. *)
Definition eq_str (v : pyval) (lit : string) : bool :=
  match v with
  | VStr s => String.eqb s lit
  | _ => false
  end.

Definition is_none (v : pyval) : bool :=
  match v with
  | VNone => true
  | _ => false
  end.

(** Truth value of an object in a condition. *)
Definition truthy (v : pyval) : bool :=
  match v with
  | VNone => false
  | VBool b => b
  | VInt z => negb (Z.eqb z 0)
  | VStr s => negb (String.eqb s "")
  | VList l | VTuple l => match l with [] => false | _ => true end
  end.

Definition type_name (v : pyval) : string :=
  match v with
  | VNone => "NoneType"
  | VBool _ => "bool"
  | VInt _ => "int"
  | VStr _ => "str"
  | VList _ => "list"
  | VTuple _ => "tuple"
  end.

(** [v[i]] for a literal index [i]. *)
Definition subscript (v : pyval) (i : nat) : exc pyval :=
  match v with
  | VStr s =>
      match String.get i s with
      | Some c => ok (VStr (String c EmptyString))
      | None => throw (IndexError "string index out of range")
      end
  | VList l =>
      match nth_error l i with
      | Some x => ok x
      | None => throw (IndexError "list index out of range")
      end
  | VTuple l =>
      match nth_error l i with
      | Some x => ok x
      | None => throw (IndexError "tuple index out of range")
      end
  | _ => throw (TypeError ("'" ++ type_name v ++ "' object is not subscriptable"))
  end.

(** [**kwargs]: a dictionary from names to values. *)
Definition kwargs : Type := list (string * pyval).

Fixpoint kw_get (k : string) (kw : kwargs) : option pyval :=
  match kw with
  | [] => None
  | (k', v) :: kw' => if String.eqb k k' then Some v else kw_get k kw'
  end.

Definition kw_mem (k : string) (kw : kwargs) : bool :=
  match kw_get k kw with
  | Some _ => true
  | None => false
  end.

(** [kwargs[k]]. *)
Definition kw_item (k : string) (kw : kwargs) : exc pyval :=
  match kw_get k kw with
  | Some v => ok v
  | None => throw (KeyError k)
  end.

(** [kwargs.get(k, default)], the binding of a defaulted parameter. *)
Definition kw_default (k : string) (d : pyval) (kw : kwargs) : pyval :=
  match kw_get k kw with
  | Some v => v
  | None => d
  end.

(** ['-'.join(items)]: every item must be a [str]. *)
Fixpoint str_items (l : list pyval) : exc (list string) :=
  match l with
  | [] => ok []
  | VStr s :: l' => ebind (str_items l') (fun r => ok (s :: r))
  | v :: _ =>
      throw (TypeError ("sequence item: expected str instance, "
                          ++ type_name v ++ " found"))
  end.

End Py.

Import Py.

Declare Scope exc_scope.
Delimit Scope exc_scope with exc.
Notation "x <- m ;; k" := (ebind m (fun x => k))
  (at level 100, m at next level, right associativity) : exc_scope.

(** ** Output file naming *)

(** [get_outfile], the closure of [calculate_diagnostic] over [base_path].
    It is called as [get_outfile(infile=..., **kwargs)]: a caller's own
    [infile] keyword collides with the explicit one.  The template is
    ['{infile}_{time_period[0]}-{time_period[1]}_{season}_{time_aggregation}_{region}.nc'],
    whose fields are looked up left to right. *)
Definition get_outfile (base_path infile : string) (kw : kwargs) : exc string :=
  (if kw_mem "infile" kw
   then throw (TypeError "got multiple values for keyword argument 'infile'")
   else
     let infile' := PyStr.replace ".nc" "" (PyStr.basename infile) in
     region <- kw_item "region" kw ;;
     region' <- match region with
                | VList l => items <- str_items l ;; ok (VStr (PyStr.join "-" items))
                | _ => ok region
                end ;;
     tp <- kw_item "time_period" kw ;;
     tp0 <- subscript tp 0 ;;
     tp' <- kw_item "time_period" kw ;;
     tp1 <- subscript tp' 1 ;;
     season <- kw_item "season" kw ;;
     agg <- kw_item "time_aggregation" kw ;;
     ok (PyStr.path_join base_path
           (infile' ++ "_" ++ py_str tp0 ++ "-" ++ py_str tp1 ++ "_"
              ++ py_str season ++ "_" ++ py_str agg ++ "_"
              ++ py_str region' ++ ".nc")))%exc.


(** ** Labelled arrays *)

Module Xr.

(** A grid cell holds a number or is missing (NaN).  Numbers are exact
    rationals: rounding is outside this model. *)
Definition cell : Type := option Q.
Definition NaN : cell := None.

Definition isnan (c : cell) : bool :=
  match c with
  | None => true
  | Some _ => false
  end.

Definition any_nan (l : list cell) : bool := existsb isnan l.

Definition cell_map (f : Q -> Q) (c : cell) : cell := option_map f c.

Definition cell_map2 (f : Q -> Q -> Q) (a b : cell) : cell :=
  match a, b with
  | Some x, Some y => Some (f x y)
  | _, _ => NaN
  end.

Record Date : Type := mkDate { year : Z; month : Z; day : Z }.

(** The leading dimension of an array: the time axis of an input, the
    [year] or [month] axis a [groupby] leaves, or none after a reduction
    (the data then is a single slice). *)
Inductive axis : Type :=
| AxTime (ts : list Date)
| AxYear (ys : list Z)
| AxMonth (ms : list Z)
| AxNone.

Inductive attr : Type :=
| AStr (s : string)
| ANum (q : Q).

Definition attrs : Type := list (string * attr).

Fixpoint attr_get (k : string) (a : attrs) : option attr :=
  match a with
  | [] => None
  | (k', v) :: a' => if String.eqb k k' then Some v else attr_get k a'
  end.

(** [a[k] = v]. *)
Fixpoint attr_set (k : string) (v : attr) (a : attrs) : attrs :=
  match a with
  | [] => [(k, v)]
  | (k', v') :: a' =>
      if String.eqb k k' then (k, v) :: a' else (k', v') :: attr_set k v a'
  end.

Definition attr_eq_str (a : attr) (lit : string) : bool :=
  match a with
  | AStr s => String.eqb s lit
  | ANum _ => false
  end.

(** The text of an attribute inside a message; a number is shown as the
    fraction that represents it. *)
Definition attr_str (a : attr) : string :=
  match a with
  | AStr s => s
  | ANum q => PyStr.of_Z (Qnum q) ++ "/" ++ PyStr.of_Z (Zpos (Qden q))
  end.

Definition grid (A : Type) : Type := list (list A).

(** Data is indexed [leading axis][lat][lon]. *)
Record DataArray : Type := mkDA {
  da_axis : axis;
  da_lat : list Q;
  da_lon : list Q;
  da_data : list (grid cell);
  da_attrs : attrs;
  da_encoding : attrs
}.

Definition Dataset : Type := list (string * DataArray).

Fixpoint ds_get (k : string) (ds : Dataset) : option DataArray :=
  match ds with
  | [] => None
  | (k', v) :: ds' => if String.eqb k k' then Some v else ds_get k ds'
  end.

Definition with_data (da : DataArray) (d : list (grid cell)) : DataArray :=
  mkDA (da_axis da) (da_lat da) (da_lon da) d (da_attrs da) (da_encoding da).

Definition with_attrs (da : DataArray) (a : attrs) : DataArray :=
  mkDA (da_axis da) (da_lat da) (da_lon da) (da_data da) a (da_encoding da).

Definition with_encoding (da : DataArray) (e : attrs) : DataArray :=
  mkDA (da_axis da) (da_lat da) (da_lon da) (da_data da) (da_attrs da) e.

Definition with_axis (da : DataArray) (ax : axis) (d : list (grid cell))
  : DataArray :=
  mkDA ax (da_lat da) (da_lon da) d (da_attrs da) (da_encoding da).

(** Element-wise arithmetic on the values, [da.data *= k] and the like. *)
Definition map_cells (f : Q -> Q) (d : list (grid cell)) : list (grid cell) :=
  map (map (map (cell_map f))) d.

(** [np.arange(start, stop, step)] with its [n] elements. *)
Definition arange (start step : Q) (n : nat) : list Q :=
  map (fun i => start + inject_Z (Z.of_nat i) * step) (seq 0 n).

(** [np.all(a == b)]; arrays of different shapes do not compare equal. *)
Fixpoint coords_eqb (a b : list Q) : bool :=
  match a, b with
  | [], [] => true
  | x :: a', y :: b' => Qeq_bool x y && coords_eqb a' b'
  | _, _ => false
  end.

(** Boolean masks over the horizontal grid. *)
Definition mask_of (f : Q -> Q -> bool) (lat lon : list Q) : grid bool :=
  map (fun la => map (fun lo => f la lo) lon) lat.

Fixpoint where_row (m : list bool) (r : list cell) : list cell :=
  match r with
  | [] => []
  | c :: r' =>
      match m with
      | true :: m' => c :: where_row m' r'
      | _ :: m' => NaN :: where_row m' r'
      | [] => NaN :: where_row [] r'
      end
  end.

Fixpoint where_slice (m : grid bool) (sl : grid cell) : grid cell :=
  match sl with
  | [] => []
  | r :: sl' =>
      match m with
      | mr :: m' => where_row mr r :: where_slice m' sl'
      | [] => where_row [] r :: where_slice [] sl'
      end
  end.

(** [da.where(mask)]: the mask is broadcast along the leading axis. *)
Definition da_where (m : grid bool) (da : DataArray) : DataArray :=
  with_data da (map (where_slice m) (da_data da)).

(** [np.all(np.isnan(slice))]. *)
Definition all_nan (sl : grid cell) : bool := forallb (forallb isnan) sl.

(** The series of one cell along the leading axis. *)
Definition series_at (d : list (grid cell)) (i j : nat) : list cell :=
  map (fun sl => nth j (nth i sl []) NaN) d.

(** A reduction of the leading axis applied to every cell. *)
Definition reduce_axis (red : list cell -> cell) (nlat nlon : nat)
    (d : list (grid cell)) : grid cell :=
  map (fun i => map (fun j => red (series_at d i j)) (seq 0 nlon)) (seq 0 nlat).

(** A series-to-series function applied to every cell; the result keeps
    the [n] steps of the leading axis. *)
Definition map_axis (f : list cell -> list cell) (n nlat nlon : nat)
    (d : list (grid cell)) : list (grid cell) :=
  map (fun t =>
         map (fun i =>
                map (fun j => nth t (f (series_at d i j)) NaN) (seq 0 nlon))
             (seq 0 nlat))
      (seq 0 n).

(** *** Means *)

Fixpoint qsum (l : list Q) : Q :=
  match l with
  | [] => 0
  | x :: l' => x + qsum l'
  end.

(** The present values of a series, or nothing when one is missing. *)
Fixpoint all_present (l : list cell) : option (list Q) :=
  match l with
  | [] => Some []
  | None :: _ => None
  | Some x :: l' => option_map (cons x) (all_present l')
  end.

Definition qmean (l : list Q) : cell :=
  match l with
  | [] => NaN
  | _ => Some (qsum l / inject_Z (Z.of_nat (length l)))
  end.

(** [mean(skipna=False)]: a missing value makes the mean missing; so does
    an empty series. *)
Definition mean_strict (l : list cell) : cell :=
  match all_present l with
  | Some qs => qmean qs
  | None => NaN
  end.

Fixpoint present (l : list cell) : list Q :=
  match l with
  | [] => []
  | Some x :: l' => x :: present l'
  | None :: l' => present l'
  end.

(** [mean()] with the default [skipna]: missing values are left out. *)
Definition mean_skipna (l : list cell) : cell := qmean (present l).

(** *** Grouping *)

Fixpoint insert_uniq (k : Z) (l : list Z) : list Z :=
  match l with
  | [] => [k]
  | x :: l' =>
      if (k <? x)%Z then k :: l
      else if (k =? x)%Z then l
      else x :: insert_uniq k l'
  end.

(** The distinct keys in ascending order, as [groupby] lists its groups. *)
Definition sort_uniq (l : list Z) : list Z := fold_right insert_uniq [] l.

(** The members of the group [k]: the steps whose key is [k], in order. *)
Fixpoint select {A} (key : Date -> Z) (k : Z) (ts : list Date) (d : list A)
  : list A :=
  match ts, d with
  | t :: ts', x :: d' =>
      if (key t =? k)%Z then x :: select key k ts' d' else select key k ts' d'
  | _, _ => []
  end.

(** [da.groupby('time.<key>').mean('time', ...)] with [red] for the mean. *)
Definition groupby_reduce (key : Date -> Z) (red : list cell -> cell)
    (ts : list Date) (nlat nlon : nat) (d : list (grid cell))
  : list Z * list (grid cell) :=
  let ks := sort_uniq (map key ts) in
  (ks, map (fun k => reduce_axis red nlat nlon (select key k ts d)) ks).

(** The meteorological season of a month, [time.season]. *)
Definition season_of (m : Z) : string :=
  if ((m =? 12) || (m =? 1) || (m =? 2))%Z then "DJF"
  else if ((3 <=? m) && (m <=? 5))%Z then "MAM"
  else if ((6 <=? m) && (m <=? 8))%Z then "JJA"
  else "SON".

End Xr.

Import Xr.

(** ** The world outside the module *)

(** What a path of the file system holds: a NetCDF dataset, or a text
    table as [np.loadtxt] parses it. *)
Inductive File : Type :=
| NetCDF (ds : Dataset)
| Text (rows : list (list Q)).

(** The effects of the module, in the order in which they happen: log
    records, file accesses, and the stages of the basic pipeline. *)
Inductive Stage : Type :=
| StRegrid
| StValidate
| StSelTime
| StSelSeason
| StSelRegion
| StRegionCheck
| StOceanMask
| StUnits
| StReduce.

Inductive Event : Type :=
| EvLog (level msg : string)
| EvOpen (path : string)
| EvWrite (path : string)
| EvStage (s : Stage).

Record Store : Type := mkStore {
  files : list (string * File);
  events : list Event
}.

Fixpoint file_get (p : string) (fs : list (string * File)) : option File :=
  match fs with
  | [] => None
  | (p', f) :: fs' => if String.eqb p p' then Some f else file_get p fs'
  end.

(** The collaborators: [cdo], [utils_python], [xarray]'s label-based
    time selection, [regionmask], [salem], [numpy] and [scipy].  Their
    code is not part of the module, so the module is modelled over any
    implementation of them. *)
Record Lib : Type := mkLib {
  REGION_DIR : string;
  cdo_remapbil : string -> Dataset -> exc Dataset;
  cdo_tempfile : string -> string;
  standardize_dimensions : DataArray -> exc DataArray;
  sel_time_slice : string -> string -> DataArray -> exc DataArray;
  srex_abbrevs : list string;
  srex_map_keys : pyval -> exc (list Z);
  srex_mask : Q -> Q -> option Z;
  land_110_mask : Q -> Q -> option Z;
  salem_roi : Q * Q -> Q * Q -> DataArray -> exc DataArray;
  salem_subset_corners : Q * Q -> Q * Q -> nat -> DataArray -> exc DataArray;
  salem_subset_roi : grid bool -> nat -> DataArray -> exc DataArray;
  signal_detrend : list cell -> list cell;
  linregress_slope : list cell -> list cell -> exc cell;
  np_std : list cell -> cell;
  pearsonr : list cell -> list cell -> exc (cell * cell)
}.

(** ** The state-and-error monad of the effectful functions *)

Definition M (A : Type) : Type := Store -> exc A * Store.

Definition ret {A} (a : A) : M A := fun st => (ok a, st).
Definition raise {A} (e : exn) : M A := fun st => (throw e, st).
Definition bind {A B} (m : M A) (k : A -> M B) : M B :=
  fun st =>
    match m st with
    | (inl e, st') => (inl e, st')
    | (inr a, st') => k a st'
    end.
Definition lift {A} (r : exc A) : M A := fun st => (r, st).
Definition emit (e : Event) : M unit :=
  fun st => (ok tt, mkStore (files st) (events st ++ [e])).

Declare Scope M_scope.
Delimit Scope M_scope with M.
Notation "x <- m ;; k" := (bind m (fun x => k))
  (at level 100, m at next level, right associativity) : M_scope.
Notation "m ;;; k" := (bind m (fun _ => k))
  (at level 100, right associativity) : M_scope.

Definition stage (s : Stage) : M unit := emit (EvStage s).
Definition log (level msg : string) : M unit := emit (EvLog level msg).

(** [os.path.isfile]. *)
Definition isfile (p : string) : M bool :=
  fun st => (ok (match file_get p (files st) with Some _ => true | None => false end), st).

(** [xr.open_dataset]. *)
Definition open_dataset (p : string) : M Dataset :=
  (emit (EvOpen p) ;;;
   fun st =>
     match file_get p (files st) with
     | Some (NetCDF ds) => (ok ds, st)
     | Some (Text _) => (throw (LibraryError "not a valid NetCDF file"), st)
     | None => (throw (FileNotFoundError p), st)
     end)%M.

(** [ds.to_netcdf]. *)
Definition to_netcdf (ds : Dataset) (p : string) : M unit :=
  (emit (EvWrite p) ;;;
   fun st => (ok tt, mkStore ((p, NetCDF ds) :: files st) (events st)))%M.

(** [np.loadtxt]. *)
Definition loadtxt (p : string) : M (list (list Q)) :=
  (emit (EvOpen p) ;;;
   fun st =>
     match file_get p (files st) with
     | Some (Text rows) => (ok rows, st)
     | Some (NetCDF _) => (throw (ValueError "could not convert string to float"), st)
     | None => (throw (FileNotFoundError p), st)
     end)%M.

(** [ds[varn]]. *)
Definition ds_item (ds : Dataset) (varn : string) : exc DataArray :=
  match ds_get varn ds with
  | Some da => ok da
  | None => throw (KeyError varn)
  end.

(** A fallible function applied to the items of a list, first to last. *)
Fixpoint emap {A B} (f : A -> exc B) (l : list A) : exc (list B) :=
  match l with
  | [] => ok []
  | x :: l' =>
      match f x with
      | inl e => inl e
      | inr y =>
          match emap f l' with
          | inl e => inl e
          | inr r => inr (y :: r)
          end
      end
  end.

(** ** The functions of the module *)

Definition MASK : string := "land_sea_mask_regionsmask.nc".

(** The fixed 2.5 degree grid: [np.arange(-88.75, 90., 2.5)] and
    [np.arange(-178.75, 180., 2.5)]. *)
Definition grid_lat : list Q := arange (-355 # 4) (5 # 2) 72.
Definition grid_lon : list Q := arange (-715 # 4) (5 # 2) 144.

(** The parameters of [calculate_basic_diagnostic] that have defaults. *)
Record BasicArgs : Type := mkArgs {
  time_period : pyval;
  season : pyval;
  time_aggregation : pyval;
  mask_ocean : pyval;
  region : pyval;
  overwrite : pyval;
  regrid : pyval
}.

Definition basic_keywords : list string :=
  ["time_period"; "season"; "time_aggregation"; "mask_ocean"; "region";
   "overwrite"; "regrid"].

(** Binding [**kwargs] to the parameters of
    [calculate_basic_diagnostic(infile, varn, outfile, **kwargs)]. *)
Definition bind_basic_args (kw : kwargs) : exc BasicArgs :=
  if forallb (fun kv => existsb (String.eqb (fst kv)) basic_keywords) kw
  then ok (mkArgs (kw_default "time_period" VNone kw)
                  (kw_default "season" VNone kw)
                  (kw_default "time_aggregation" VNone kw)
                  (kw_default "mask_ocean" (VBool false) kw)
                  (kw_default "region" (VStr "GLOBAL") kw)
                  (kw_default "overwrite" (VBool false) kw)
                  (kw_default "regrid" (VBool false) kw))
  else throw (TypeError "calculate_basic_diagnostic() got an unexpected keyword argument").

Definition qmin (a b : Q) : Q := if Qle_bool a b then a else b.
Definition qmax (a b : Q) : Q := if Qle_bool a b then b else a.
Definition qgt (a b : Q) : bool := negb (Qle_bool a b).

Definition date_eqb (a b : Date) : bool :=
  ((year a =? year b) && (month a =? month b) && (day a =? day b))%Z.

Fixpoint dates_eqb (a b : list Date) : bool :=
  match a, b with
  | [], [] => true
  | x :: a', y :: b' => date_eqb x y && dates_eqb a' b'
  | _, _ => false
  end.

(** The time axis of an array that has one. *)
Definition time_axis (da : DataArray) : exc (list Date) :=
  match da_axis da with
  | AxTime ts => ok ts
  | _ => throw (KeyError "time")
  end.

(** [da.isel(time=da['time.season'] == season)]. *)
Definition isel_season (s : string) (da : DataArray) : exc DataArray :=
  (ts <- time_axis da ;;
   let keep := map (fun t => String.eqb (season_of (month t)) s) ts in
   let pick {A} (l : list A) :=
     map snd (filter fst (combine keep l)) in
   ok (with_axis da (AxTime (pick ts)) (pick (da_data da))))%exc.

(** [da.isel(time=0)]. *)
Definition isel_first (da : DataArray) : exc (grid cell) :=
  (_ <- time_axis da ;;
   match da_data da with
   | sl :: _ => ok sl
   | [] => throw (IndexError "index 0 is out of bounds for axis 0 with size 0")
   end)%exc.

(** Subtraction and addition of arrays that share their coordinates (the
    four flux files of one model run); the result carries no attributes. *)
Fixpoint zip_with {A B C} (f : A -> B -> C) (a : list A) (b : list B)
  : list C :=
  match a, b with
  | x :: a', y :: b' => f x y :: zip_with f a' b'
  | _, _ => []
  end.

Definition da_binop (f : Q -> Q -> Q) (a b : DataArray) : DataArray :=
  mkDA (da_axis a) (da_lat a) (da_lon a)
       (zip_with (zip_with (zip_with (cell_map2 f))) (da_data a) (da_data b))
       [] [].

Section Functions.

Variable L : Lib.

(** [detrend], vectorized over the cells with signature [(n)->(n)]. *)
Definition detrend (data : list cell) : list cell :=
  if any_nan data
  then map (fun x => cell_map2 Qmult x NaN) data
  else signal_detrend L data.

(** [trend], vectorized with signature [(n)->()]. *)
Definition trend (data : list cell) : exc cell :=
  if any_nan data
  then ok NaN
  else
    let xx := map Some (arange 0 1 (length data)) in
    linregress_slope L xx data.

(** [da.attr], the attribute-style access to [da.attrs]. *)
Definition getattr (da : DataArray) (k : string) : exc attr :=
  match attr_get k (da_attrs da) with
  | Some v => ok v
  | None => throw (AttributeError ("'DataArray' object has no attribute '" ++ k ++ "'"))
  end.

Definition is_flux_tuple (varns : pyval) : bool :=
  match varns with
  | VTuple [a; b; c; d] =>
      eq_str a "rlds" && eq_str b "rlus" && eq_str c "rsds" && eq_str d "rsus"
  | _ => false
  end.

Definition calculate_net_radiation (infile : string) (varns : pyval)
    (outname diagn : string) : M unit :=
  (if negb (is_flux_tuple varns) then raise (AssertionError "")
   else
     let v0 := "rlds" in let v1 := "rlus" in
     let v2 := "rsds" in let v3 := "rsus" in
     ds1 <- open_dataset infile ;;
     da1 <- lift (ds_item ds1 v0) ;;
     ds2 <- open_dataset (PyStr.replace v0 v1 infile) ;;
     da2 <- lift (ds_item ds2 v1) ;;
     ds3 <- open_dataset (PyStr.replace v0 v2 infile) ;;
     da3 <- lift (ds_item ds3 v2) ;;
     ds4 <- open_dataset (PyStr.replace v0 v3 infile) ;;
     da4 <- lift (ds_item ds4 v3) ;;
     let da := da_binop Qplus (da_binop Qminus da1 da2) (da_binop Qminus da3 da4) in
     units <- lift (getattr da1 "units") ;;
     let a := attr_set "units" units (da_attrs da) in
     let fill := match getattr da1 "_FillValue" with
                 | inr v => v
                 | inl _ => ANum (100000000000000000000 # 1)
                 end in
     let a := attr_set "_FillValue" fill a in
     let a := attr_set "long_name" (AStr "Surface Downwelling Net Radiation") a in
     let a := attr_set "standard_name" (AStr "surface_downwelling_net_flux_in_air") a in
     to_netcdf [(diagn, with_attrs da a)] outname)%M.

(** [unit.lower()]: only a string has the method. *)
Definition attr_lower (u : attr) : exc string :=
  match u with
  | AStr s => ok (PyStr.lower s)
  | ANum _ => throw (AttributeError "'float' object has no attribute 'lower'")
  end.

Definition not_covered {A} (unit : attr) (varn : string) : M A :=
  raise (ValueError ("Unit " ++ attr_str unit ++ " not covered for " ++ varn)).

Definition set_units (da : DataArray) (newunit : string) : DataArray :=
  with_attrs da (attr_set "units" (AStr newunit) (da_attrs da)).

Definition mem_str (s : string) (l : list string) : bool :=
  existsb (String.eqb s) l.

(** [standardize_units]: [None] is Python's [None]. *)
Definition standardize_units (da : DataArray) (varn : string)
  : M (option DataArray) :=
  (match attr_get "units" (da_attrs da) with
   | None =>
       log "WARNING" ("units attribute not found for " ++ varn) ;;;
       ret None
   | Some unit =>
       (* --- precipitation --- *)
       if String.eqb varn "pr" then
         let newunit := "mm/day" in
         if attr_eq_str unit "kg m-2 s-1" then
           ret (Some (set_units
                        (with_data da (map_cells (fun q => q * (24 * 60 * 60)) (da_data da)))
                        newunit))
         else if attr_eq_str unit "mm" then ret (Some (set_units da newunit))
         else if attr_eq_str unit newunit then ret (Some da)
         else not_covered unit varn
       (* --- temperature --- *)
       else if mem_str varn ["tas"; "tasmax"; "tasmin"; "tos"] then
         let newunit := "degC" in
         if attr_eq_str unit newunit then ret (Some da)
         else if attr_eq_str unit "K" then
           ret (Some (set_units
                        (with_data da (map_cells (fun q => q - (27315 # 100)) (da_data da)))
                        newunit))
         else
           low <- lift (attr_lower unit) ;;
           if mem_str low ["degc"; "deg_c"; "celsius"; "degreec";
                           "degree_c"; "degree_celsius"]
           then ret (Some (set_units da newunit))
           else not_covered unit varn
       (* --- pressure --- *)
       else if mem_str varn ["psl"] then
         let newunit := "pa" in
         low <- lift (attr_lower unit) ;;
         if String.eqb low newunit then ret (Some da)
         else
           low' <- lift (attr_lower unit) ;;
           if String.eqb low' "hPa" then
             ret (Some (set_units
                          (with_data da (map_cells (fun q => q * 100) (da_data da)))
                          newunit))
           else not_covered unit varn
       (* --- radiation --- *)
       else if mem_str varn ["rsds"; "rsus"; "rlds"; "rlus"; "rnet"] then
         let newunit := "W m**-2" in
         if attr_eq_str unit newunit then ret (Some da)
         else if attr_eq_str unit "W m-2" then ret (Some (set_units da newunit))
         else not_covered unit varn
       (* --- not covered --- *)
       else
         log "WARNING" ("Variable " ++ varn ++ " not covered in standardize_units") ;;;
         ret (Some da)
   end)%M.

End Functions.

Section Pipeline.

Variable L : Lib.

(** [cdo.remapbil(os.path.join(REGION_DIR, MASK), options='-b F64',
    input=infile)]: the remapped dataset is written to a temporary file
    whose path is returned. *)
Definition remapbil (infile : string) : M string :=
  (stage StRegrid ;;;
   fun st =>
     match file_get infile (files st) with
     | Some (NetCDF ds) =>
         match cdo_remapbil L (PyStr.path_join (REGION_DIR L) MASK) ds with
         | inr ds' =>
             let tmp := cdo_tempfile L infile in
             (ok tmp, mkStore ((tmp, NetCDF ds') :: files st) (events st))
         | inl e => (inl e, st)
         end
     | _ => (throw (LibraryError "cdo remapbil: open failed"), st)
     end)%M.

(** Lines 217-232: a region given by a file of corners. *)
Definition custom_region (name : string) (da : DataArray) : M DataArray :=
  (let regionfile := PyStr.path_join (REGION_DIR L) name ++ ".txt" in
   there <- isfile regionfile ;;
   if negb there
   then raise (ValueError (regionfile ++ " is not a valid regionfile"))
   else
     mask <- loadtxt regionfile ;;
     match mask with
     | [[x0; y0]; [x1; y1]; [x2; y2]; [x3; y3]] =>
         let lonmin := qmin (qmin x0 x1) (qmin x2 x3) in
         let latmin := qmin (qmin y0 y1) (qmin y2 y3) in
         let lonmax := qmax (qmax x0 x1) (qmax x2 x3) in
         let latmax := qmax (qmax y0 y1) (qmax y2 y3) in
         if qgt lonmax 180 || qgt (-180) lonmin || qgt latmax 90 || qgt (-90) latmin
         then raise (ValueError ("Wrong lat/lon value in " ++ regionfile))
         else
           da <- lift (salem_roi L (lonmin, latmin) (lonmax, latmax) da) ;;
           lift (salem_subset_corners L (lonmin, latmin) (lonmax, latmax) 1 da)
     | _ =>
         raise (ValueError ("Wrong file content for regionfile " ++ regionfile
                              ++ "! Should contain four lines with corners like: lon, lat"))
     end)%M.

Definition code_is (f : Q -> Q -> option Z) (key : Z) (la lo : Q) : bool :=
  match f la lo with
  | Some c => (c =? key)%Z
  | None => false
  end.

(** Line 241: [sum(masks) == 1] for the masks [srex.mask(da) == key]. *)
Definition srex_union (keys : list Z) (la lo : Q) : bool :=
  (length (filter (fun key => code_is (srex_mask L) key la lo) keys) =? 1)%nat.

(** Lines 234-243: a region, or a list of regions, of the SREX catalog. *)
Definition named_region (region : pyval) (da : DataArray) : M DataArray :=
  (let region := match region with
                 | VStr _ => VList [region]
                 | _ => region
                 end in
   keys <- lift (srex_map_keys L region) ;;
   let mask := mask_of (srex_union keys) (da_lat da) (da_lon da) in
   let da := da_where mask da in
   lift (salem_subset_roi L mask 1 da))%M.

(** Lines 215-243: the two ways of masking a region. *)
Definition mask_region (region : pyval) (da : DataArray) : M DataArray :=
  match region with
  | VStr name =>
      if negb (mem_str name (srex_abbrevs L))
      then custom_region name da
      else named_region region da
  | _ => named_region region da
  end.

(** Lines 245-248. *)
Definition check_region (da : DataArray) : M DataArray :=
  (stage StRegionCheck ;;;
   first <- lift (isel_first da) ;;
   if all_nan first then
     let errmsg := "All grid points masked! Wrong masking settings?" in
     log "ERROR" errmsg ;;;
     raise (ValueError errmsg)
   else ret da)%M.

(** Lines 214-248. *)
Definition select_region (region : pyval) (da : DataArray) : M DataArray :=
  (if negb (eq_str region "GLOBAL") then
     stage StSelRegion ;;;
     da <- mask_region region da ;;
     check_region da
   else ret da)%M.

(** Lines 204-205. *)
Definition select_time (time_period : pyval) (da : DataArray) : M DataArray :=
  (if negb (is_none time_period) then
     stage StSelTime ;;;
     t0 <- lift (subscript time_period 0) ;;
     t1 <- lift (subscript time_period 1) ;;
     lift (sel_time_slice L (py_str t0) (py_str t1) da)
   else ret da)%M.

(** Lines 207-212. *)
Definition select_season (season : pyval) (da : DataArray) : M DataArray :=
  (if existsb (eq_str season) ["JJA"; "SON"; "DJF"; "MAM"] then
     stage StSelSeason ;;;
     lift (isel_season (py_str season) da)
   else if is_none season || eq_str season "ANN" then ret da
   else raise (NotImplementedError ("season=" ++ py_str season)))%M.

(** Lines 250-252. *)
Definition select_land (mask_ocean : pyval) (da : DataArray) : M DataArray :=
  (if truthy mask_ocean then
     stage StOceanMask ;;;
     let sea_mask := mask_of (code_is (land_110_mask L) 0) (da_lat da) (da_lon da) in
     ret (da_where sea_mask da)
   else ret da)%M.

(** Lines 263-283: the aggregation of the time axis.  Returns the array
    and the attribute dictionary [attrs]. *)
Definition aggregate (time_aggregation : pyval) (da : DataArray) (attrs : attrs)
  : M (DataArray * Xr.attrs) :=
  (let nlat := length (da_lat da) in
   let nlon := length (da_lon da) in
   if eq_str time_aggregation "CLIM" then
     ts <- lift (time_axis da) ;;
     let (ys, d) := groupby_reduce year mean_strict ts nlat nlon (da_data da) in
     let da := with_axis da (AxYear ys) d in
     let da := with_axis da AxNone [reduce_axis mean_strict nlat nlon (da_data da)] in
     ret (da, attrs)
   else if eq_str time_aggregation "STD" then
     ts <- lift (time_axis da) ;;
     let da := with_data da (map_axis (detrend L) (length ts) nlat nlon (da_data da)) in
     let da := with_axis da AxNone [reduce_axis (np_std L) nlat nlon (da_data da)] in
     ret (da, attrs)
   else if eq_str time_aggregation "TREND" then
     _ <- lift (time_axis da) ;;
     sl <- lift (emap (fun i => emap (fun j => trend L (series_at (da_data da) i j))
                                     (seq 0 nlon))
                      (seq 0 nlat)) ;;
     let da := with_axis da AxNone [sl] in
     units <- lift (match attr_get "units" attrs with
                    | Some u => ok u
                    | None => throw (KeyError "units")
                    end) ;;
     ret (da, attr_set "units" (AStr (attr_str units ++ " year**-1")) attrs)
   else if eq_str time_aggregation "CYC" then
     ts <- lift (time_axis da) ;;
     let (ms, d) := groupby_reduce month mean_skipna ts nlat nlon (da_data da) in
     ret (with_axis da (AxMonth ms) d, attrs)
   else if is_none time_aggregation || eq_str time_aggregation "CORR" then
     ret (da, attrs)
   else
     (* the exception object is built and dropped: there is no [raise] *)
     let _ := NotImplementedError ("time_aggregation=" ++ py_str time_aggregation) in
     ret (da, attrs))%M.

(** Lines 194-290: the computation when no stored result is returned. *)
Definition compute_basic (infile varn : string) (outfile : option string)
    (a : BasicArgs) : M Dataset :=
  (infile <- (if truthy (regrid a) then remapbil infile else ret infile) ;;
   ds0 <- open_dataset infile ;;
   da <- lift (ds_item ds0 varn) ;;
   let enc := da_encoding da in
   da <- lift (standardize_dimensions L da) ;;
   stage StValidate ;;;
   if negb (coords_eqb (da_lat da) grid_lat) then raise (AssertionError "")
   else if negb (coords_eqb (da_lon da) grid_lon) then raise (AssertionError "")
   else
     da <- select_time (time_period a) da ;;
     da <- select_season (season a) da ;;
     da <- select_region (region a) da ;;
     da <- select_land (mask_ocean a) da ;;
     stage StUnits ;;;
     r <- standardize_units da varn ;;
     match r with
     | None => raise (AttributeError "'NoneType' object has no attribute 'attrs'")
     | Some da =>
         let attrs := da_attrs da in
         stage StReduce ;;;
         r <- aggregate (time_aggregation a) da attrs ;;
         let (da, attrs) := (r : DataArray * Xr.attrs) in
         let ds := [(varn, with_encoding (with_attrs da attrs) enc)] in
         match outfile with
         | Some p => to_netcdf ds p
         | None => ret tt
         end ;;;
         ret ds
     end)%M.

Definition calculate_basic_diagnostic (infile varn : string)
    (outfile : option string) (a : BasicArgs) : M Dataset :=
  (match (if truthy (overwrite a) then None else outfile) with
   | Some p =>
       there <- isfile p ;;
       if there then
         log "DEBUG" "Diagnostic already exists & overwrite=False, skipping." ;;;
         open_dataset p
       else compute_basic infile varn outfile a
   | None => compute_basic infile varn outfile a
   end)%M.

End Pipeline.

(** ** The dispatcher *)

(** The argument [diagn]: a [str], a [dict] (its items, in order), or any
    other object. *)
Inductive DiagnosticSpec : Type :=
| DStr (name : string)
| DDict (items : list (pyval * pyval))
| DOther (v : pyval).

(** [a == b] on keyword values. *)
#[warnings="-register-all"]
Fixpoint py_eqb (a b : pyval) {struct a} : bool :=
  let fix list_eqb (l m : list pyval) {struct l} : bool :=
    match l, m with
    | [], [] => true
    | x :: l', y :: m' => py_eqb x y && list_eqb l' m'
    | _, _ => false
    end in
  let int_of (b : bool) : Z := if b then 1%Z else 0%Z in
  match a, b with
  | VNone, VNone => true
  | VBool x, VBool y => Bool.eqb x y
  | VInt x, VInt y => (x =? y)%Z
  | VBool x, VInt y => (int_of x =? y)%Z
  | VInt x, VBool y => (x =? int_of y)%Z
  | VStr x, VStr y => String.eqb x y
  | VList l, VList m => list_eqb l m
  | VTuple l, VTuple m => list_eqb l m
  | _, _ => false
  end.

(** [len(v)]. *)
Definition py_len (v : pyval) : exc nat :=
  match v with
  | VStr s => ok (String.length s)
  | VList l | VTuple l => ok (length l)
  | _ => throw (TypeError ("object of type '" ++ type_name v ++ "' has no len()"))
  end.

(** A variable name taken from a sequence of names: variables are named
    by strings, and another object is refused where it is first used as
    the name of a variable. *)
Definition as_name (v : pyval) : exc string :=
  match v with
  | VStr s => ok s
  | _ => throw (TypeError ("variable name must be str, not " ++ type_name v))
  end.

Section Dispatcher.

Variable L : Lib.

(** [_corr], vectorized with signature [(n),(n)->()]. *)
Definition _corr (arr1 arr2 : list cell) : exc cell :=
  (r <- pearsonr L arr1 arr2 ;; ok (fst r))%exc.

(** [xr.apply_ufunc(_corr, a, b, input_core_dims=[['time'], ['time']])]:
    both arrays have a time axis, and their coordinates are equal. *)
Definition apply_corr (a b : DataArray) : exc DataArray :=
  (ta <- time_axis a ;;
   tb <- time_axis b ;;
   if dates_eqb ta tb && coords_eqb (da_lat a) (da_lat b)
      && coords_eqb (da_lon a) (da_lon b)
   then
     sl <- emap (fun i =>
                   emap (fun j => _corr (series_at (da_data a) i j)
                                        (series_at (da_data b) i j))
                        (seq 0 (length (da_lon a))))
                (seq 0 (length (da_lat a))) ;;
     ok (mkDA AxNone (da_lat a) (da_lon a) [sl] [] [])
   else throw (ValueError "indexes along dimension are not equal"))%exc.

(** The call [calculate_basic_diagnostic(infile, varn, outfile, **kwargs)]. *)
Definition call_basic (infile varn outfile : string) (kw : kwargs) : M Dataset :=
  (a <- lift (bind_basic_args kw) ;;
   calculate_basic_diagnostic L infile varn (Some outfile) a)%M.

(** [calculate_diagnostic]; the result [None] is Python's [None], which a
    function returns when it ends without a [return]. *)
Definition calculate_diagnostic (infile : string) (diagn : DiagnosticSpec)
    (base_path : string) (kw : kwargs) : M (option Dataset) :=
  (match diagn with
   | DStr name => (* basic diagnostic *)
       outfile <- lift (get_outfile base_path infile kw) ;;
       ds <- call_basic infile name outfile kw ;;
       ret (Some ds)
   | DDict items => (* derived diagnostic *)
       match items with
       | [(key, varns)] =>
           let diagn := key in
           if eq_str diagn "rnet" then
             v0 <- lift (subscript varns 0) ;;
             v0 <- lift (match v0 with
                         | VStr s => ok s
                         | _ => throw (TypeError "replace() argument 1 must be str")
                         end) ;;
             let tmpfile :=
               PyStr.path_join base_path
                 (PyStr.replace v0 "rnet" (PyStr.basename infile)) in
             calculate_net_radiation infile varns tmpfile "rnet" ;;;
             outfile <- lift (get_outfile base_path tmpfile kw) ;;
             ds <- call_basic tmpfile "rnet" outfile kw ;;
             ret (Some ds)
           else
             agg <- lift (kw_item "time_aggregation" kw) ;;
             if eq_str agg "CORR" then
               n <- lift (py_len varns) ;;
               if negb (n =? 2)%nat
               then raise (AssertionError "can only correlate two variables")
               else
                 v0 <- lift (subscript varns 0) ;;
                 v1 <- lift (subscript varns 1) ;;
                 if py_eqb v0 v1
                 then raise (AssertionError "can not correlate same variables")
                 else
                   outfile1 <- lift (get_outfile base_path infile kw) ;;
                   n0 <- lift (as_name v0) ;;
                   ds1 <- call_basic infile n0 outfile1 kw ;;
                   let (path, fn) := PyStr.path_split infile in
                   let fn := PyStr.replace (py_str v0 ++ "_") (py_str v1 ++ "_") fn in
                   let path := PyStr.replace ("/" ++ py_str v0 ++ "/")
                                             ("/" ++ py_str v1 ++ "/") (path ++ "/") in
                   let infile2 := PyStr.path_join path fn in
                   outfile2 <- lift (get_outfile base_path infile2 kw) ;;
                   n1 <- lift (as_name v1) ;;
                   ds2 <- call_basic infile2 n1 outfile2 kw ;;
                   da1 <- lift (ds_item ds1 n0) ;;
                   da2 <- lift (ds_item ds2 n1) ;;
                   da <- lift (apply_corr da1 da2) ;;
                   let outfile3 :=
                     PyStr.replace ("/" ++ py_str v0 ++ "_")
                                   ("/" ++ py_str diagn ++ "_") outfile1 in
                   let ds3 := [(py_str diagn,
                                with_attrs da [("units", AStr "1")])] in
                   to_netcdf ds3 outfile3 ;;;
                   ret (Some ds3)
             else ret None
       | _ => raise (AssertionError "")
       end
   | DOther _ => ret None
   end)%M.

End Dispatcher.

(** ** A small world

    An implementation of the collaborators and a few files, on which the
    functions can be run. *)

Module Sample.

Definition qle (a b : Q) : bool := Qle_bool a b.

Definition in_box (lo hi : Q * Q) (la lon : Q) : bool :=
  qle (fst lo) lon && qle lon (fst hi) && qle (snd lo) la && qle la (snd hi).

(** The year a date string starts with. *)
Definition digit (c : ascii) : Z := Z.of_nat (nat_of_ascii c) - 48.

Fixpoint digits (s : string) (n : nat) (acc : Z) : Z :=
  match n, s with
  | S n', String c s' => digits s' n' (10 * acc + digit c)
  | _, _ => acc
  end.

Definition year_of (s : string) : Z := digits s 4 0.

(** Time selection at the granularity of years. *)
Definition sel_years (t0 t1 : string) (da : DataArray) : exc DataArray :=
  match da_axis da with
  | AxTime ts =>
      let keep := map (fun t => (year_of t0 <=? year t) && (year t <=? year_of t1))%Z ts in
      ok (with_axis da
            (AxTime (map snd (filter fst (combine keep ts))))
            (map snd (filter fst (combine keep (da_data da)))))
  | _ => throw (KeyError "time")
  end.

Definition map_keys (v : pyval) : exc (list Z) :=
  match v with
  | VList l | VTuple l =>
      emap (fun x =>
              if eq_str x "NEU" then ok 11%Z
              else if eq_str x "CEU" then ok 12%Z
              else if eq_str x "MED" then ok 13%Z
              else throw (KeyError (py_str x))) l
  | _ => throw (TypeError "regions must be given as a list")
  end.

(** Three boxes standing for the regions NEU, CEU and MED. *)
Definition srex (la lon : Q) : option Z :=
  if in_box (-10, 61) (40, 75) la lon then Some 11%Z
  else if in_box (-10, 45) (40, 61) la lon then Some 12%Z
  else if in_box (-10, 30) (40, 45) la lon then Some 13%Z
  else None.

(** Land: everything between 60W and 60E. *)
Definition land (la lon : Q) : option Z :=
  if in_box (-60, -90) (60, 90) la lon then Some 0%Z else None.

(** [roi(corners=...)]: missing outside the box. *)
Definition roi (lo hi : Q * Q) (da : DataArray) : exc DataArray :=
  ok (da_where (mask_of (in_box lo hi) (da_lat da) (da_lon da)) da).

(** No cropping: the extent is kept. *)
Definition keep_extent (da : DataArray) : exc DataArray := ok da.

(** Slope of the least-squares line through the points [(x, y)]. *)
Definition slope (xx data : list cell) : exc cell :=
  match all_present xx, all_present data with
  | Some xs, Some ys =>
      let n := inject_Z (Z.of_nat (length xs)) in
      let sx := qsum xs in
      let sy := qsum ys in
      let sxy := qsum (zip_with Qmult xs ys) in
      let sxx := qsum (zip_with Qmult xs xs) in
      let den := n * sxx - sx * sx in
      if Qeq_bool den 0 then ok NaN
      else ok (Some (Qred ((n * sxy - sx * sy) / den)))
  | _, _ => ok NaN
  end.

(** The correlation of two series, exact where it is -1, 0 or 1 and
    missing elsewhere; missing values propagate. *)
Definition corr (a b : list cell) : exc (cell * cell) :=
  if negb (length a =? length b)%nat
  then throw (ValueError "x and y must have the same length.")
  else
    match all_present a, all_present b with
    | Some xs, Some ys =>
        let n := inject_Z (Z.of_nat (length xs)) in
        let cov := n * qsum (zip_with Qmult xs ys) - qsum xs * qsum ys in
        let vx := n * qsum (zip_with Qmult xs xs) - qsum xs * qsum xs in
        let vy := n * qsum (zip_with Qmult ys ys) - qsum ys * qsum ys in
        if Qeq_bool (vx * vy) 0 then ok (NaN, NaN)
        else if Qeq_bool cov 0 then ok (Some 0, NaN)
        else if Qeq_bool (cov * cov) (vx * vy)
        then ok (Some (if Qle_bool 0 cov then 1 else -1), Some 0)
        else ok (NaN, NaN)
    | _, _ => ok (NaN, NaN)
    end.

Definition lib : Lib := {|
  REGION_DIR := "functions/../cdo_data/";
  cdo_remapbil := fun _ ds => ok ds;
  cdo_tempfile := fun p => "/tmp/cdo_" ++ PyStr.basename p;
  standardize_dimensions := fun da => ok da;
  sel_time_slice := sel_years;
  srex_abbrevs := ["NEU"; "CEU"; "MED"];
  srex_map_keys := map_keys;
  srex_mask := srex;
  land_110_mask := land;
  salem_roi := roi;
  salem_subset_corners := fun _ _ _ => keep_extent;
  salem_subset_roi := fun _ _ => keep_extent;
  signal_detrend := fun data => data;
  linregress_slope := slope;
  np_std := fun data => NaN;
  pearsonr := corr
|}.

(** A field on the fixed grid with the value [v] everywhere. *)
Definition constant_slice (v : cell) : grid cell := repeat (repeat v 144) 72.

Definition field (ts : list Date) (vs : list cell) (a : attrs) : DataArray :=
  mkDA (AxTime ts) grid_lat grid_lon (map constant_slice vs) a [].

Definition months_2000_2001 : list Date :=
  [mkDate 2000 1 15; mkDate 2000 7 15; mkDate 2001 7 15].

Definition tas_K : DataArray :=
  field months_2000_2001 [Some 280; Some 290; Some 292] [("units", AStr "K")].

Definition tas_file : string := "/data/tas/tas_mon_model.nc".

Definition store0 : Store :=
  mkStore [(tas_file, NetCDF [("tas", tas_K)])] [].

Definition args0 : BasicArgs :=
  mkArgs VNone VNone VNone (VBool false) (VStr "GLOBAL") (VBool false) (VBool false).

End Sample.


(** ** Inputs of the examples *)

Definition psl_hPa : DataArray :=
  Sample.field [mkDate 2000 1 15] [Some 1013] [("units", AStr "hPa")].

Definition tas_no_units : DataArray :=
  Sample.field Sample.months_2000_2001 [Some 280; Some 290; Some 292] [].

Definition store_no_units : Store :=
  mkStore [(Sample.tas_file, NetCDF [("tas", tas_no_units)])] [].

Definition supported_aggregation (v : pyval) : bool :=
  is_none v || existsb (eq_str v) ["CLIM"; "STD"; "TREND"; "CYC"; "CORR"].

Definition args_mean : BasicArgs :=
  mkArgs VNone VNone (VStr "MEAN") (VBool false) (VStr "GLOBAL")
         (VBool false) (VBool false).

Definition kw_clim : kwargs :=
  [("time_period", VTuple [VInt 2000; VInt 2001]); ("season", VStr "JJA");
   ("time_aggregation", VStr "CLIM"); ("region", VStr "GLOBAL")].

(** ** The order of the stages *)

(** The stages among the events of a run. *)
Fixpoint stages_of (evs : list Event) : list Stage :=
  match evs with
  | [] => []
  | EvStage s :: evs' => s :: stages_of evs'
  | _ :: evs' => stages_of evs'
  end.

(** The position of a stage in the body of [calculate_basic_diagnostic]. *)
Definition rank (s : Stage) : nat :=
  match s with
  | StRegrid => 0
  | StValidate => 1
  | StSelTime => 2
  | StSelSeason => 3
  | StSelRegion => 4
  | StRegionCheck => 5
  | StOceanMask => 6
  | StUnits => 7
  | StReduce => 8
  end.


(** The stages of [tr] have strictly increasing positions, from [lo] on. *)
Fixpoint increasing (r : Stage -> nat) (lo : nat) (tr : list Stage) : bool :=
  match tr with
  | [] => true
  | s :: tr' => (lo <=? r s)%nat && increasing r (S (r s)) tr'
  end.

Definition below (hi : nat) (tr : list Stage) : bool :=
  forallb (fun s => (rank s <? hi)%nat) tr.


Local Open Scope nat_scope.
(** [emits m lo hi must]: from any store, [m] adds events whose stages are
    in the order of [rank], with ranks from [lo] up to [hi] excluded; when
    [m] returns a value the stages [must] are among them. *)
Definition emits {A} (m : M A) (lo hi : nat) (must : list Stage) : Prop :=
  forall st, exists evs,
    events (snd (m st)) = (events st ++ evs)%list
    /\ increasing rank lo (stages_of evs) = true
    /\ below hi (stages_of evs) = true
    /\ (forall a, fst (m st) = inr a -> incl must (stages_of evs)).

Local Close Scope nat_scope.

Definition args_jja_clim : BasicArgs :=
  mkArgs (VTuple [VInt 2000; VInt 2001]) (VStr "JJA") (VStr "CLIM")
         (VBool false) (VStr "GLOBAL") (VBool false) (VBool false).



Definition args_bad_season : BasicArgs :=
  mkArgs VNone (VStr "XYZ") VNone (VBool false) (VStr "GLOBAL")
         (VBool false) (VBool false).






(** ** The name of the output file *)

(** The five fields that [get_outfile] renders from the keyword arguments:
    start and end of the time window, season, aggregation and region. *)
Definition naming_fields (kw : kwargs) : exc (list string) :=
  (region <- kw_item "region" kw ;;
   region' <- match region with
              | VList l => items <- str_items l ;; ok (VStr (PyStr.join "-" items))
              | _ => ok region
              end ;;
   tp <- kw_item "time_period" kw ;;
   tp0 <- subscript tp 0 ;;
   tp1 <- subscript tp 1 ;;
   season <- kw_item "season" kw ;;
   agg <- kw_item "time_aggregation" kw ;;
   ok [py_str tp0; py_str tp1; py_str season; py_str agg; py_str region'])%exc.

(** The file name made of the input file and the five fields. *)
Definition outfile_name (infile t0 t1 season agg region : string) : string :=
  PyStr.replace ".nc" "" (PyStr.basename infile) ++ "_" ++ t0 ++ "-" ++ t1
    ++ "_" ++ season ++ "_" ++ agg ++ "_" ++ region ++ ".nc".

(** Two lists of fields differ at the position [i] and nowhere else. *)
Definition differ_only_at (i : nat) (a b : list string) : Prop :=
  length a = length b
  /\ nth i a "" <> nth i b ""
  /\ forall j, j <> i -> nth j a "" = nth j b "".

(** Every invocation whose [mask_ocean] differs gets another path. *)
Definition outfile_separates_mask_ocean : Prop :=
  forall base infile kwA kwB pA pB,
    get_outfile base infile kwA = inr pA ->
    get_outfile base infile kwB = inr pB ->
    kw_get "mask_ocean" kwA <> kw_get "mask_ocean" kwB ->
    pA <> pB.

Definition kw_all_cells : kwargs :=
  [("time_period", VTuple [VInt 2000; VInt 2001]); ("season", VStr "ANN");
   ("time_aggregation", VStr "CLIM"); ("region", VStr "GLOBAL");
   ("mask_ocean", VBool false)].

Definition kw_land_cells : kwargs :=
  [("time_period", VTuple [VInt 2000; VInt 2001]); ("season", VStr "ANN");
   ("time_aggregation", VStr "CLIM"); ("region", VStr "GLOBAL");
   ("mask_ocean", VBool true)].

(** The value a returned dataset has for ['tas'] at the south-west corner
    of the grid. *)
Definition corner_cell (r : exc (option Dataset)) : option (list cell) :=
  match r with
  | inr (Some ds) =>
      match ds_get "tas" ds with
      | Some da => Some (series_at (da_data da) 0 0)
      | None => None
      end
  | _ => None
  end.

(** ** The arguments the dispatcher needs *)

(** The four arguments [get_outfile] reads are given, and the time window
    has an item 0 and an item 1. *)
Definition naming_arguments_supplied (kw : kwargs) : Prop :=
  exists tp t0 t1 season agg region,
    kw_get "time_period" kw = Some tp
    /\ subscript tp 0 = inr t0 /\ subscript tp 1 = inr t1
    /\ kw_get "season" kw = Some season
    /\ kw_get "time_aggregation" kw = Some agg
    /\ kw_get "region" kw = Some region.

(** A region that [get_outfile] can render: a list holds strings only. *)
Definition region_joinable (region : pyval) : bool :=
  match region with
  | VList l => match str_items l with
               | inr _ => true
               | inl _ => false
               end
  | _ => true
  end.



(** ** The climatology of one cell, in the words of the specification *)







(** ** The correlation and missing values *)





Definition pr_full : DataArray :=
  Sample.field Sample.months_2000_2001 [Some 1; Some 2; Some 4]
    [("units", AStr "mm/day")].

(** ** Further inputs and notions *)

(** Which cells of the data are missing. *)
Definition missing_pattern (d : list (grid cell)) : list (grid bool) :=
  map (map (map isnan)) d.

(** A precipitation flux and a temperature in kelvin. *)
Definition pr_flux : DataArray :=
  Sample.field Sample.months_2000_2001 [Some (1 # 86400); NaN; Some 0]
    [("units", AStr "kg m-2 s-1"); ("long_name", AStr "Precipitation")].


(** [s] ends with [suffix]. *)
Fixpoint ends_with (suffix s : string) : bool :=
  String.eqb s suffix
  || match s with
     | EmptyString => false
     | String _ s' => ends_with suffix s'
     end.


(** ** What a computation does to the files *)



Definition cache_msg : string :=
  "Diagnostic already exists & overwrite=False, skipping.".

Definition args_overwrite : BasicArgs :=
  mkArgs VNone VNone VNone (VBool false) (VStr "GLOBAL") (VBool true) (VBool false).

(** A store that holds a result but not the input it was computed from. *)
Definition store_result_only : Store :=
  mkStore [("/out/x.nc", NetCDF [("tas", Sample.tas_K)])] [].

(** A field on a grid of one degree. *)
Definition tas_one_degree : DataArray :=
  mkDA (AxTime Sample.months_2000_2001) (arange (-179 # 2) 1 180)
       (arange (-359 # 2) 1 360) [] [("units", AStr "K")] [].

Definition store_one_degree : Store :=
  mkStore [(Sample.tas_file, NetCDF [("tas", tas_one_degree)])] [].

(** A field with an encoding. *)
Definition tas_encoded : DataArray :=
  with_encoding Sample.tas_K [("dtype", AStr "float32"); ("_FillValue", ANum 100000000000000000000)].

Definition store_encoded : Store :=
  mkStore [(Sample.tas_file, NetCDF [("tas", tas_encoded)])] [].

(** A season token outside the four seasons, ['ANN'] and [None]. *)
Definition unknown_season (season : pyval) : bool :=
  negb (existsb (eq_str season) ["JJA"; "SON"; "DJF"; "MAM"])
  && negb (is_none season) && negb (eq_str season "ANN").

Definition args_lower_season : BasicArgs :=
  mkArgs VNone (VStr "jja") VNone (VBool false) (VStr "GLOBAL")
         (VBool false) (VBool false).

(** The time steps of a season. *)
Definition in_season (s : string) (t : Date) : bool :=
  String.eqb (season_of (month t)) s.

(** The corner file of a region that is no SREX abbreviation. *)
Definition regionfile (L : Lib) (name : string) : string :=
  PyStr.path_join (REGION_DIR L) name ++ ".txt".

(** The corners are out of the range of longitudes and latitudes. *)
Definition out_of_range (lonmin latmin lonmax latmax : Q) : bool :=
  qgt lonmax 180 || qgt (-180) lonmin || qgt latmax 90 || qgt (-90) latmin.

Definition store_bad_corners : Store :=
  mkStore [("functions/../cdo_data/BOX.txt",
            Text [[170; -10]; [170; 10]; [190; 10]; [190; -10]]);
           (Sample.tas_file, NetCDF [("tas", Sample.tas_K)])] [].

(** A field with units and a gap in the series of every cell. *)
Definition tas_gap_K : DataArray :=
  Sample.field Sample.months_2000_2001 [Some 280; NaN; Some 292]
    [("units", AStr "degC")].

(** ** Derived diagnostics *)






Definition kw_corr : kwargs :=
  [("time_period", VTuple [VInt 2000; VInt 2001]); ("season", VStr "ANN");
   ("time_aggregation", VStr "CORR"); ("region", VStr "GLOBAL")].

(** The files of two variables of one model, in parallel directories. *)
Definition store_tas_pr : Store :=
  mkStore [(Sample.tas_file, NetCDF [("tas", Sample.tas_K)]);
           ("/data/pr/pr_mon_model.nc", NetCDF [("pr", pr_full)])] [].

(** * Properties *)

Local Open Scope list_scope.
Local Open Scope nat_scope.

(** ** Unit normalization *)

Lemma lower_ascii_not_P (c : ascii) : PyStr.lower_ascii c <> "P"%char.
Proof.
  destruct c as [[] [] [] [] [] [] [] []]; vm_compute; discriminate.
Qed.

(** No string is turned into ['hPa'] by [str.lower]: the comparison of
    line 121 never holds. *)
Lemma lower_never_hPa (s : string) : String.eqb (PyStr.lower s) "hPa" = false.
Proof.
  apply String.eqb_neq. intros H.
  destruct s as [|c1 [|c2 s]]; simpl in H; try discriminate.
  injection H as _ H _. exact (lower_ascii_not_P c2 H).
Qed.

(** Whatever unit a pressure field declares, its values are never scaled. *)
Lemma psl_values_never_scaled (da da' : DataArray) (st st' : Store) :
  standardize_units da "psl" st = (inr (Some da'), st') ->
  da_data da' = da_data da.
Proof.
  unfold standardize_units.
  destruct (attr_get "units" (da_attrs da)) as [u|]; simpl.
  - destruct u as [s|q]; simpl; unfold bind, lift, ret, not_covered, raise; simpl.
    + rewrite lower_never_hPa.
      destruct (String.eqb (PyStr.lower s) "pa"); intros H; inversion H; reflexivity.
    + intros H; inversion H.
  - unfold bind, log, emit, ret; simpl. intros H; inversion H.
Qed.


(** C3: a sea-level pressure field declared in ['hPa'] is refused with the
    [ValueError] of an uncovered unit; it is neither multiplied by 100 nor
    stamped with the canonical unit. *)
Theorem psl_hPa_refused :
  standardize_units psl_hPa "psl" Sample.store0
  = (inl (ValueError "Unit hPa not covered for psl"), Sample.store0).
Proof. vm_compute. reflexivity. Qed.



(** C2: for a field without a [units] attribute the normalizer logs a
    warning and returns [None], and the pipeline that called it stops with
    an [AttributeError]; nothing is written. *)
Theorem missing_units_crash :
  standardize_units tas_no_units "tas" store_no_units
  = (inr None,
     mkStore (files store_no_units)
             [EvLog "WARNING" "units attribute not found for tas"])
  /\ (let r := calculate_basic_diagnostic Sample.lib Sample.tas_file "tas"
                 (Some "/out/tas.nc") Sample.args0 store_no_units in
      fst r = inl (AttributeError "'NoneType' object has no attribute 'attrs'")
      /\ files (snd r) = files store_no_units).
Proof. vm_compute. repeat split. Qed.

(** ** Temporal reduction *)


(** An aggregation outside the supported ones leaves the array as it is. *)
Lemma aggregate_unsupported (L : Lib) (agg : pyval) (da : DataArray) (a : attrs) :
  supported_aggregation agg = false ->
  aggregate L agg da a = ret (da, a).
Proof.
  unfold supported_aggregation, aggregate; simpl. intros H.
  destruct (is_none agg); [discriminate|].
  destruct (eq_str agg "CLIM"); [discriminate|].
  destruct (eq_str agg "STD"); [discriminate|].
  destruct (eq_str agg "TREND"); [discriminate|].
  destruct (eq_str agg "CYC"); [discriminate|].
  destruct (eq_str agg "CORR"); [discriminate|].
  reflexivity.
Qed.


(** C1: with [time_aggregation='MEAN'] the pipeline raises nothing: it
    returns the field with its time axis, exactly as for
    [time_aggregation=None], and writes it to the output file. *)
Theorem unsupported_aggregation_persisted :
  let run a := calculate_basic_diagnostic Sample.lib Sample.tas_file "tas"
                 (Some "/out/tas_MEAN.nc") a Sample.store0 in
  run args_mean = run Sample.args0
  /\ exists ds,
       fst (run args_mean) = inr ds
       /\ file_get "/out/tas_MEAN.nc" (files (snd (run args_mean))) = Some (NetCDF ds)
       /\ option_map da_axis (ds_get "tas" ds)
          = Some (AxTime Sample.months_2000_2001).
Proof.
  split; [vm_compute; reflexivity|].
  eexists. vm_compute. repeat split.
Qed.

(** ** Dispatch *)

(** A derivation that is neither ['rnet'] nor a correlation: the
    dispatcher ends without a result and without an effect. *)
Lemma unknown_derivation_returns_None (L : Lib) (infile base : string)
    (key varns agg : pyval) (kw : kwargs) (st : Store) :
  eq_str key "rnet" = false ->
  kw_get "time_aggregation" kw = Some agg ->
  eq_str agg "CORR" = false ->
  calculate_diagnostic L infile (DDict [(key, varns)]) base kw st = (inr None, st).
Proof.
  intros Hk Ha Hc. unfold calculate_diagnostic. rewrite Hk.
  unfold bind, lift, kw_item. rewrite Ha. simpl. rewrite Hc. reflexivity.
Qed.


(** C4: the derivation [{'tasclt': ['tas', 'clt']}] with
    [time_aggregation='CLIM'] raises nothing and returns [None]; no file is
    read or written. *)
Theorem unknown_derivation_silent :
  calculate_diagnostic Sample.lib Sample.tas_file
    (DDict [(VStr "tasclt", VList [VStr "tas"; VStr "clt"])]) "/out" kw_clim
    Sample.store0
  = (inr None, Sample.store0).
Proof. vm_compute. reflexivity. Qed.

(** ** The monad *)

Lemma bind_inr {A B} (m : M A) (k : A -> M B) (st st' : Store) (b : B) :
  bind m k st = (inr b, st') ->
  exists a st1, m st = (inr a, st1) /\ k a st1 = (inr b, st').
Proof.
  unfold bind. destruct (m st) as [[e|a] st1]; intros H.
  - discriminate.
  - exists a, st1. split; [reflexivity|exact H].
Qed.

Lemma bind_inl {A B} (m : M A) (k : A -> M B) (st st1 : Store) (e : exn) :
  m st = (inl e, st1) -> bind m k st = (inl e, st1).
Proof. unfold bind. intros ->. reflexivity. Qed.

Lemma bind_step {A B} (m : M A) (k : A -> M B) (st st1 : Store) (a : A) :
  m st = (inr a, st1) -> bind m k st = k a st1.
Proof. unfold bind. intros ->. reflexivity. Qed.

Lemma lift_inr {A} (r : exc A) (st st' : Store) (a : A) :
  lift r st = (inr a, st') -> r = inr a /\ st' = st.
Proof. unfold lift. intros H. inversion H. split; reflexivity. Qed.

(** ** The order of the stages *)

Lemma stages_of_app (a b : list Event) :
  stages_of (a ++ b) = stages_of a ++ stages_of b.
Proof.
  induction a as [|e a IH]; simpl; [reflexivity|].
  destruct e; simpl; rewrite IH; reflexivity.
Qed.

Lemma increasing_weaken (r : Stage -> nat) (lo lo' : nat) (tr : list Stage) :
  (lo' <= lo)%nat -> increasing r lo tr = true -> increasing r lo' tr = true.
Proof.
  destruct tr as [|s tr]; simpl; [reflexivity|].
  intros Hle H. apply andb_true_iff in H as [H1 H2].
  apply andb_true_iff. split; [|exact H2].
  apply Nat.leb_le. apply Nat.leb_le in H1. lia.
Qed.

Lemma increasing_app (lo mid : nat) (t1 t2 : list Stage) :
  (lo <= mid)%nat ->
  increasing rank lo t1 = true -> below mid t1 = true ->
  increasing rank mid t2 = true ->
  increasing rank lo (t1 ++ t2) = true.
Proof.
  revert lo. induction t1 as [|s t1 IH]; simpl; intros lo Hle H1 Hb H2.
  - apply (increasing_weaken rank mid lo); assumption.
  - apply andb_true_iff in H1 as [Hs H1].
    apply andb_true_iff in Hb as [Hm Hb].
    apply andb_true_iff. split; [exact Hs|].
    apply IH; try assumption.
    apply Nat.ltb_lt in Hm. lia.
Qed.

Lemma below_weaken (hi hi' : nat) (tr : list Stage) :
  (hi <= hi')%nat -> below hi tr = true -> below hi' tr = true.
Proof.
  unfold below. intros Hle H. rewrite forallb_forall in *.
  intros s Hs. specialize (H s Hs).
  apply Nat.ltb_lt. apply Nat.ltb_lt in H. lia.
Qed.

Lemma below_app (hi : nat) (t1 t2 : list Stage) :
  below hi t1 = true -> below hi t2 = true -> below hi (t1 ++ t2) = true.
Proof. unfold below. intros H1 H2. rewrite forallb_app, H1, H2. reflexivity. Qed.







Lemma emits_bind {A B} (m : M A) (k : A -> M B) (lo mid hi : nat)
    (mu1 mu2 : list Stage) :
  (lo <= mid)%nat -> (mid <= hi)%nat ->
  emits m lo mid mu1 -> (forall a, emits (k a) mid hi mu2) ->
  emits (bind m k) lo hi (mu1 ++ mu2).
Proof.
  intros Hlo Hhi Hm Hk st. destruct (Hm st) as (e1 & E1 & I1 & B1 & M1).
  unfold bind. destruct (m st) as [[e|a] st1] eqn:Em; simpl in *.
  - exists e1. repeat split; try assumption.
    + apply (below_weaken mid hi); assumption.
    + intros b Hb. discriminate.
  - destruct (Hk a st1) as (e2 & E2 & I2 & B2 & M2).
    exists (e1 ++ e2). repeat split.
    + rewrite E2, E1, app_assoc. reflexivity.
    + rewrite stages_of_app. apply (increasing_app lo mid); assumption.
    + rewrite stages_of_app. apply below_app; [|assumption].
      apply (below_weaken mid hi); assumption.
    + intros b Hb. rewrite stages_of_app. apply incl_app.
      * apply incl_appl. apply (M1 a). reflexivity.
      * apply incl_appr. apply (M2 b). exact Hb.
Qed.











Section StageOrder.

Variable L : Lib.











End StageOrder.


Ltac step lo mid hi :=
  eapply (emits_bind _ _ lo mid hi); [lia | lia | | intros ?].

Section PipelineOrder.

Variable L : Lib.



End PipelineOrder.







(** ** The check of the masked region *)


(** For [region='GLOBAL'] nothing is masked and nothing is checked. *)
Lemma select_region_global (L : Lib) (region : pyval) (da : DataArray) (st : Store) :
  eq_str region "GLOBAL" = true ->
  select_region L region da st = (inr da, st).
Proof. unfold select_region. intros ->. reflexivity. Qed.

(** Keeping the land cells raises nothing, and no check follows it. *)
Lemma select_land_total (L : Lib) (mask_ocean : pyval) (da : DataArray) (st : Store) :
  exists da' st', select_land L mask_ocean da st = (inr da', st').
Proof.
  unfold select_land. destruct (truthy mask_ocean).
  - eexists. eexists. reflexivity.
  - exists da, st. reflexivity.
Qed.






(** ** The name of the output file *)

Lemma append_inj_l (a b c : string) : (a ++ b = a ++ c)%string -> b = c.
Proof.
  induction a as [|x a IH]; simpl; intros H; [exact H|].
  injection H as H. apply IH. exact H.
Qed.

Lemma length_append (a b : string) :
  String.length (a ++ b)%string = String.length a + String.length b.
Proof. induction a as [|x a IH]; simpl; [reflexivity|]. rewrite IH. reflexivity. Qed.

Lemma append_inj_r (a b c : string) : (a ++ c = b ++ c)%string -> a = b.
Proof.
  revert b. induction a as [|x a IH]; intros b H.
  - destruct b as [|y b]; [reflexivity|].
    apply (f_equal String.length) in H. simpl in H.
    rewrite length_append in H. lia.
  - destruct b as [|y b].
    + apply (f_equal String.length) in H. simpl in H.
      rewrite length_append in H. lia.
    + simpl in H. injection H as -> H. f_equal. apply IH. exact H.
Qed.

Lemma append_assoc (a b c : string) : ((a ++ b) ++ c = a ++ (b ++ c))%string.
Proof. induction a as [|x a IH]; simpl; [reflexivity|]. rewrite IH. reflexivity. Qed.

(** [os.path.join] keeps apart two names that start with the same
    character. *)
Lemma path_join_inj (base : string) (c : ascii) (x y : string) :
  PyStr.path_join base (String c x) = PyStr.path_join base (String c y) -> x = y.
Proof.
  unfold PyStr.path_join. simpl.
  destruct (PyStr.is_slash c).
  - intros H. injection H as H. exact H.
  - destruct base as [|b base].
    + intros H. injection H as H. exact H.
    + destruct (PyStr.ends_with_slash (String b base)); intros H.
      * apply append_inj_l in H. injection H as H. exact H.
      * apply append_inj_l in H. simpl in H. injection H as H. exact H.
Qed.

Lemma get_outfile_inr (base infile : string) (kw : kwargs) (p : string) :
  get_outfile base infile kw = inr p ->
  kw_mem "infile" kw = false
  /\ exists t0 t1 s a r,
       naming_fields kw = inr [t0; t1; s; a; r]
       /\ p = PyStr.path_join base (outfile_name infile t0 t1 s a r).
Proof.
  unfold get_outfile, naming_fields, outfile_name.
  destruct (kw_mem "infile" kw); [discriminate|].
  intros H. split; [reflexivity|]. revert H. unfold ebind.
  destruct (kw_item "region" kw) as [e|region]; [discriminate|].
  destruct (match region with
            | VList l => match str_items l with
                         | inl e => inl e
                         | inr items => ok (VStr (PyStr.join "-" items))
                         end
            | _ => ok region
            end) as [e|region']; [discriminate|].
  destruct (kw_item "time_period" kw) as [e|tp]; [discriminate|].
  destruct (subscript tp 0) as [e|t0]; [discriminate|].
  destruct (subscript tp 1) as [e|t1]; [discriminate|].
  destruct (kw_item "season" kw) as [e|season]; [discriminate|].
  destruct (kw_item "time_aggregation" kw) as [e|agg]; [discriminate|].
  intros H. injection H as <-.
  exists (py_str t0), (py_str t1), (py_str season), (py_str agg), (py_str region').
  split; reflexivity.
Qed.

Lemma outfile_name_inj_path (base infile : string) (t0 t1 s a r t0' t1' s' a' r' : string) :
  PyStr.path_join base (outfile_name infile t0 t1 s a r)
  = PyStr.path_join base (outfile_name infile t0' t1' s' a' r') ->
  (t0 ++ "-" ++ t1 ++ "_" ++ s ++ "_" ++ a ++ "_" ++ r ++ ".nc"
   = t0' ++ "-" ++ t1' ++ "_" ++ s' ++ "_" ++ a' ++ "_" ++ r' ++ ".nc")%string.
Proof.
  unfold outfile_name.
  destruct (PyStr.replace ".nc" "" (PyStr.basename infile)) as [|c i]; simpl; intros H.
  - apply path_join_inj in H. exact H.
  - apply path_join_inj in H. apply append_inj_l in H.
    simpl in H. injection H as H. exact H.
Qed.

(** Two sets of fields that differ in one field only give two paths. *)
Lemma outfile_separates_fields (base infile : string) (i : nat)
    (t0 t1 s a r t0' t1' s' a' r' : string) :
  differ_only_at i [t0; t1; s; a; r] [t0'; t1'; s'; a'; r'] ->
  PyStr.path_join base (outfile_name infile t0 t1 s a r)
  <> PyStr.path_join base (outfile_name infile t0' t1' s' a' r').
Proof.
  intros (_ & Hi & Hj) H. apply outfile_name_inj_path in H.
  assert (E0 := Hj 0). assert (E1 := Hj 1). assert (E2 := Hj 2).
  assert (E3 := Hj 3). assert (E4 := Hj 4). simpl in E0, E1, E2, E3, E4.
  destruct i as [|[|[|[|[|i]]]]]; simpl in Hi.
  - rewrite <- E1, <- E2, <- E3, <- E4 in H by discriminate.
    apply append_inj_r in H. contradiction.
  - rewrite <- E0, <- E2, <- E3, <- E4 in H by discriminate.
    apply append_inj_l in H. simpl in H. injection H as H.
    apply append_inj_r in H. contradiction.
  - rewrite <- E0, <- E1, <- E3, <- E4 in H by discriminate.
    do 2 (apply append_inj_l in H; simpl in H; injection H as H).
    apply append_inj_r in H. contradiction.
  - rewrite <- E0, <- E1, <- E2, <- E4 in H by discriminate.
    do 3 (apply append_inj_l in H; simpl in H; injection H as H).
    apply append_inj_r in H. contradiction.
  - rewrite <- E0, <- E1, <- E2, <- E3 in H by discriminate.
    do 4 (apply append_inj_l in H; simpl in H; injection H as H).
    apply append_inj_r in H. contradiction.
  - destruct i; apply Hi; reflexivity.
Qed.

(** ** The stored result *)

Lemma file_get_head (p : string) (f : File) (fs : list (string * File)) :
  file_get p ((p, f) :: fs) = Some f.
Proof. simpl. rewrite String.eqb_refl. reflexivity. Qed.

(** A computation that returns has written what it returns. *)
Lemma compute_basic_stores (L : Lib) (infile varn p : string) (a : BasicArgs)
    (st st' : Store) (ds : Dataset) :
  compute_basic L infile varn (Some p) a st = (inr ds, st') ->
  file_get p (files st') = Some (NetCDF ds).
Proof.
  unfold compute_basic. intros H.
  apply bind_inr in H as (infile' & s1 & _ & H).
  apply bind_inr in H as (ds0 & s2 & _ & H).
  apply bind_inr in H as (da0 & s3 & _ & H).
  apply bind_inr in H as (da1 & s4 & _ & H).
  apply bind_inr in H as ([] & s5 & _ & H).
  destruct (negb _); [discriminate|].
  destruct (negb _); [discriminate|].
  apply bind_inr in H as (da2 & s6 & _ & H).
  apply bind_inr in H as (da3 & s7 & _ & H).
  apply bind_inr in H as (da4 & s8 & _ & H).
  apply bind_inr in H as (da5 & s9 & _ & H).
  apply bind_inr in H as ([] & s10 & _ & H).
  apply bind_inr in H as (r & s11 & _ & H).
  destruct r as [da6|]; [|discriminate].
  apply bind_inr in H as ([] & s12 & _ & H).
  apply bind_inr in H as ([da7 attrs] & s13 & _ & H).
  apply bind_inr in H as ([] & s14 & Hw & H).
  unfold ret in H. injection H as <- <-.
  unfold to_netcdf, bind, emit in Hw. simpl in Hw. injection Hw as <-.
  apply file_get_head.
Qed.

(** Whether computed or read back, the result is what the output file
    holds afterwards. *)
Lemma calculate_basic_stores (L : Lib) (infile varn p : string) (a : BasicArgs)
    (st st' : Store) (ds : Dataset) :
  calculate_basic_diagnostic L infile varn (Some p) a st = (inr ds, st') ->
  file_get p (files st') = Some (NetCDF ds).
Proof.
  unfold calculate_basic_diagnostic.
  destruct (truthy (overwrite a)); [apply compute_basic_stores|].
  unfold bind at 1, isfile. simpl.
  destruct (file_get p (files st)) as [f|] eqn:E; [|apply compute_basic_stores].
  unfold open_dataset, log, bind, emit. simpl. rewrite E.
  destruct f as [ds'|rows]; [|discriminate].
  intros H. injection H as <- <-. simpl. exact E.
Qed.

(** With [overwrite] off, a stored result is returned as it is. *)
Lemma calculate_basic_cached (L : Lib) (infile varn p : string) (a : BasicArgs)
    (st : Store) (ds : Dataset) :
  truthy (overwrite a) = false ->
  file_get p (files st) = Some (NetCDF ds) ->
  fst (calculate_basic_diagnostic L infile varn (Some p) a st) = inr ds.
Proof.
  intros Ho E. unfold calculate_basic_diagnostic. rewrite Ho.
  unfold open_dataset, isfile, log, bind, emit. simpl. rewrite E. simpl.
  rewrite E. reflexivity.
Qed.

(** C5: the path of the output file is made of the base path, the name of
    the input file and five fields: start and end of the time window,
    season, aggregation and region.  Invocations on one input file with the
    same fields get the same path; invocations that differ in exactly one
    field get different paths; and when the paths are the same and
    [overwrite] is off, the later invocation returns the result the earlier
    one left in the file, whatever the variable and the other arguments of
    the two (the [mask_ocean] flag among them). *)
Theorem outfile_key (L : Lib) (base infile : string) (kwA kwB : kwargs)
    (pA pB : string)
    (HA : get_outfile base infile kwA = inr pA)
    (HB : get_outfile base infile kwB = inr pB) :
  exists fA fB,
    naming_fields kwA = inr fA /\ naming_fields kwB = inr fB
    /\ (fA = fB -> pA = pB)
    /\ (forall i, differ_only_at i fA fB -> pA <> pB)
    /\ (pA = pB ->
        forall nameA nameB st dsA stA b,
          bind_basic_args kwB = inr b -> truthy (overwrite b) = false ->
          calculate_diagnostic L infile (DStr nameA) base kwA st
          = (inr (Some dsA), stA) ->
          fst (calculate_diagnostic L infile (DStr nameB) base kwB stA)
          = inr (Some dsA)).
Proof.
  destruct (get_outfile_inr _ _ _ _ HA) as (_ & t0 & t1 & s & a & r & FA & EA).
  destruct (get_outfile_inr _ _ _ _ HB) as (_ & t0' & t1' & s' & a' & r' & FB & EB).
  exists [t0; t1; s; a; r], [t0'; t1'; s'; a'; r'].
  split; [exact FA|]. split; [exact FB|]. split; [|split].
  - intros E. injection E as -> -> -> -> ->. rewrite EA, EB. reflexivity.
  - intros i D. rewrite EA, EB. apply (outfile_separates_fields _ _ i). exact D.
  - intros Ep nameA nameB st dsA stA b Hb Ho Hrun. subst pB.
    unfold calculate_diagnostic in *. rewrite HA in Hrun. rewrite HB.
    unfold lift in *. unfold bind at 1 in Hrun. unfold bind at 1.
    apply bind_inr in Hrun as (ds & s1 & Hc & Hr).
    unfold ret in Hr. injection Hr as -> ->.
    unfold call_basic in Hc. apply bind_inr in Hc as (a0 & s2 & Ha0 & Hc).
    apply lift_inr in Ha0 as [_ ->].
    apply calculate_basic_stores in Hc.
    unfold call_basic. rewrite Hb. unfold bind at 2. unfold lift.
    unfold bind. rewrite <- Ep.
    pose proof (calculate_basic_cached L infile nameB pA b stA dsA Ho Hc) as Hd.
    destruct (calculate_basic_diagnostic L infile nameB (Some pA) b stA)
      as [[e|ds'] st'']; simpl in Hd.
    + discriminate.
    + injection Hd as ->. simpl. reflexivity.
Qed.

(** C5, as claimed: two invocations that differ in the [mask_ocean] flag
    only have one and the same output path, and the one that asks for the
    land cells gets back the unmasked climatology the other has stored,
    where its own computation leaves the corner of the grid missing. *)
Lemma mask_ocean_shares_outfile :
  get_outfile "/out" Sample.tas_file kw_all_cells
  = inr "/out/tas_mon_model_2000-2001_ANN_CLIM_GLOBAL.nc"%string
  /\ get_outfile "/out" Sample.tas_file kw_land_cells
     = inr "/out/tas_mon_model_2000-2001_ANN_CLIM_GLOBAL.nc"%string
  /\ kw_get "mask_ocean" kw_all_cells <> kw_get "mask_ocean" kw_land_cells
  /\ (let run kw st :=
        calculate_diagnostic Sample.lib Sample.tas_file (DStr "tas") "/out" kw st in
      let rA := run kw_all_cells Sample.store0 in
      let rB := run kw_land_cells (snd rA) in
      let rB' := run kw_land_cells Sample.store0 in
      fst rB = fst rA
      /\ (exists q, corner_cell (fst rB) = Some [Some q] /\ (q == 307 # 20)%Q)
      /\ corner_cell (fst rB') = Some [NaN])
  /\ ~ outfile_separates_mask_ocean.
Proof.
  split; [vm_compute; reflexivity|].
  split; [vm_compute; reflexivity|].
  split; [vm_compute; discriminate|].
  split.
  { cbv zeta. split; [vm_compute; reflexivity|].
    split; [|vm_compute; reflexivity].
    eexists. split; [vm_compute; reflexivity|]. vm_compute. reflexivity. }
  intros H.
  apply (H "/out"%string Sample.tas_file kw_all_cells kw_land_cells
           "/out/tas_mon_model_2000-2001_ANN_CLIM_GLOBAL.nc"%string
           "/out/tas_mon_model_2000-2001_ANN_CLIM_GLOBAL.nc"%string);
    vm_compute; try reflexivity. discriminate.
Qed.

(** The reuse on the two invocations above. *)
Lemma outfile_key_witness :
  let run kw st :=
    calculate_diagnostic Sample.lib Sample.tas_file (DStr "tas") "/out" kw st in
  fst (run kw_land_cells (snd (run kw_all_cells Sample.store0)))
  = fst (run kw_all_cells Sample.store0).
Proof.
  destruct (outfile_key Sample.lib "/out" Sample.tas_file kw_all_cells kw_land_cells
              "/out/tas_mon_model_2000-2001_ANN_CLIM_GLOBAL.nc"
              "/out/tas_mon_model_2000-2001_ANN_CLIM_GLOBAL.nc"
              eq_refl eq_refl) as (fA & fB & _ & _ & _ & _ & R).
  cbv zeta.
  destruct (calculate_diagnostic Sample.lib Sample.tas_file (DStr "tas") "/out"
              kw_all_cells Sample.store0) as [[e|[ds|]] stA] eqn:E.
  - vm_compute in E. discriminate.
  - simpl.
    apply (R eq_refl "tas"%string "tas"%string Sample.store0 ds stA
             (mkArgs (VTuple [VInt 2000; VInt 2001]) (VStr "ANN") (VStr "CLIM")
                     (VBool true) (VStr "GLOBAL") (VBool false) (VBool false))
             eq_refl eq_refl E).
  - vm_compute in E. discriminate.
Defined.

(** ** The arguments the dispatcher needs *)

Lemma kw_item_inr (k : string) (kw : kwargs) (v : pyval) :
  kw_item k kw = inr v -> kw_get k kw = Some v.
Proof.
  unfold kw_item. destruct (kw_get k kw); intros H; inversion H. reflexivity.
Qed.

Lemma get_outfile_supplied (base infile : string) (kw : kwargs) (p : string) :
  get_outfile base infile kw = inr p -> naming_arguments_supplied kw.
Proof.
  unfold get_outfile, naming_arguments_supplied.
  destruct (kw_mem "infile" kw); [discriminate|]. unfold ebind.
  destruct (kw_item "region" kw) as [e|region] eqn:Er; [discriminate|].
  destruct (match region with
            | VList l => match str_items l with
                         | inl e => inl e
                         | inr items => ok (VStr (PyStr.join "-" items))
                         end
            | _ => ok region
            end) as [e|region']; [discriminate|].
  destruct (kw_item "time_period" kw) as [e|tp] eqn:Et; [discriminate|].
  destruct (subscript tp 0) as [e|t0] eqn:E0; [discriminate|].
  destruct (subscript tp 1) as [e|t1] eqn:E1; [discriminate|].
  destruct (kw_item "season" kw) as [e|season] eqn:Es; [discriminate|].
  destruct (kw_item "time_aggregation" kw) as [e|agg] eqn:Ea; [discriminate|].
  intros _. exists tp, t0, t1, season, agg, region.
  repeat split; try assumption; apply kw_item_inr; assumption.
Qed.









(** ** The climatology *)

Lemma nth_map_seq {A} (f : nat -> A) (n i : nat) (d : A) :
  i < n -> nth i (map f (seq 0 n)) d = f i.
Proof.
  intros H. rewrite (nth_indep _ d (f 0)) by (rewrite length_map, length_seq; exact H).
  rewrite map_nth, seq_nth by exact H. reflexivity.
Qed.

Lemma nth_reduce_axis (red : list cell -> cell) (nlat nlon : nat)
    (d : list (grid cell)) (i j : nat) :
  i < nlat -> j < nlon ->
  nth j (nth i (reduce_axis red nlat nlon d) []) NaN = red (series_at d i j).
Proof.
  intros Hi Hj. unfold reduce_axis.
  rewrite (nth_map_seq _ nlat i [] Hi), (nth_map_seq _ nlon j NaN Hj). reflexivity.
Qed.














(** ** The correlation and missing values *)



Lemma emap_nth {A B} (f : A -> exc B) (l : list A) (r : list B) (i : nat)
    (d : A) (d' : B) :
  emap f l = inr r -> i < length l -> f (nth i l d) = inr (nth i r d').
Proof.
  revert r i. induction l as [|x l IH]; intros r i H Hi; simpl in *; [lia|].
  destruct (f x) as [e|y] eqn:Ex; [discriminate|].
  destruct (emap f l) as [e|r'] eqn:Er; [discriminate|].
  injection H as <-. destruct i as [|i]; simpl; [exact Ex|].
  apply IH; [reflexivity|lia].
Qed.

Lemma detrend_nan (L : Lib) (data : list cell) :
  any_nan data = true -> detrend L data = map (fun _ => NaN) data.
Proof.
  intros H. unfold detrend. rewrite H. apply map_ext.
  intros [q|]; reflexivity.
Qed.

Lemma trend_nan (L : Lib) (data : list cell) :
  any_nan data = true -> trend L data = inr NaN.
Proof. intros H. unfold trend. rewrite H. reflexivity. Qed.




(** * Further properties of the module *)

(** ** Unit normalization *)

Lemma attr_get_set (k : string) (v : attr) (a : attrs) :
  attr_get k (attr_set k v a) = Some v.
Proof.
  induction a as [|[k' v'] a IH]; simpl.
  - rewrite String.eqb_refl. reflexivity.
  - destruct (String.eqb k k') eqn:E; simpl; rewrite ?String.eqb_refl, ?E; auto.
Qed.


Lemma missing_pattern_map_cells (f : Q -> Q) (d : list (grid cell)) :
  missing_pattern (map_cells f d) = missing_pattern d.
Proof.
  unfold missing_pattern, map_cells. rewrite !map_map. apply map_ext. intros sl.
  rewrite !map_map. apply map_ext. intros row.
  rewrite !map_map. apply map_ext. intros [q|]; reflexivity.
Qed.

(** What a successful normalization can return: the field itself, the
    field with another unit, or the field with scaled values and another
    unit. *)
Lemma standardize_units_cases (da da' : DataArray) (varn : string) (st st' : Store) :
  standardize_units da varn st = (inr (Some da'), st') ->
  da' = da
  \/ (exists u, da' = set_units da u)
  \/ (exists f u, da' = set_units (with_data da (map_cells f (da_data da))) u).
Proof.
  unfold standardize_units, not_covered.
  destruct (attr_get "units" (da_attrs da)) as [unit|].
  2: { unfold bind, log, emit, ret. simpl. intros H. discriminate. }
  repeat match goal with
         | |- (if ?b then _ else _) _ = _ -> _ => destruct b
         | |- bind (lift ?r) _ _ = _ -> _ =>
             unfold bind at 1, lift at 1; destruct r
         | |- ret (Some _) _ = _ -> _ =>
             unfold ret; intros H; injection H as <- <-
         | |- raise _ _ = _ -> _ => intros H; discriminate
         | |- (_, _) = _ -> _ => intros H; discriminate
         end;
    try (left; reflexivity);
    try (right; left; eexists; reflexivity);
    try (right; right; eexists; eexists; reflexivity).
  unfold bind, log, emit, ret. simpl. intros H. injection H as <- <-.
  left. reflexivity.
Qed.

Lemma attr_get_set_other (k k' : string) (v : attr) (a : attrs) :
  k' <> k -> attr_get k' (attr_set k v a) = attr_get k' a.
Proof.
  intros Hk. induction a as [|[k0 v0] a IH]; simpl.
  - destruct (String.eqb k' k) eqn:E; [|reflexivity].
    apply String.eqb_eq in E. contradiction.
  - destruct (String.eqb k k0) eqn:E; simpl.
    + apply String.eqb_eq in E. subst k0.
      destruct (String.eqb k' k) eqn:E'; [|reflexivity].
      apply String.eqb_eq in E'. contradiction.
    + rewrite IH. reflexivity.
Qed.

Lemma standardize_units_files (da : DataArray) (varn : string) (st : Store) :
  files (snd (standardize_units da varn st)) = files st.
Proof.
  unfold standardize_units, not_covered.
  destruct (attr_get "units" (da_attrs da)) as [unit|]; [|reflexivity].
  repeat match goal with
         | |- context [if ?b then _ else _] => destruct b
         | |- context [bind (lift ?r) _ _] =>
             unfold bind at 1, lift at 1; destruct r
         end; reflexivity.
Qed.

(** X1: unit normalization touches the values and the [units] attribute
    only: the axis, the coordinates, the encoding and every other attribute
    of the field it returns are those of the field it was given, the same
    cells are missing, and no file is written. *)
Theorem standardize_units_frame (da da' : DataArray) (varn : string)
    (st st' : Store)
    (Hrun : standardize_units da varn st = (inr (Some da'), st')) :
  da_axis da' = da_axis da
  /\ da_lat da' = da_lat da /\ da_lon da' = da_lon da
  /\ da_encoding da' = da_encoding da
  /\ missing_pattern (da_data da') = missing_pattern (da_data da)
  /\ (forall k, k <> "units"%string ->
        attr_get k (da_attrs da') = attr_get k (da_attrs da))
  /\ files st' = files st.
Proof.
  assert (Hf : files st' = files st).
  { pose proof (standardize_units_files da varn st) as H.
    rewrite Hrun in H. exact H. }
  destruct (standardize_units_cases _ _ _ _ _ Hrun)
    as [->|[(u & ->)|(f & u & ->)]]; simpl.
  - repeat split; auto.
  - repeat split; auto. intros k Hk. apply attr_get_set_other. exact Hk.
  - repeat split; auto.
    + apply missing_pattern_map_cells.
    + intros k Hk. apply attr_get_set_other. exact Hk.
Qed.

(** The frame of the normalization of a flux of precipitation. *)
Lemma standardize_units_frame_witness :
  exists da',
    fst (standardize_units pr_flux "pr" Sample.store0) = inr (Some da')
    /\ da_axis da' = da_axis pr_flux
    /\ attr_get "long_name" (da_attrs da') = Some (AStr "Precipitation")
    /\ missing_pattern (da_data da') = missing_pattern (da_data pr_flux).
Proof.
  destruct (standardize_units pr_flux "pr" Sample.store0) as [[e|[da'|]] st'] eqn:E;
    try (vm_compute in E; discriminate).
  exists da'.
  destruct (standardize_units_frame pr_flux da' "pr" Sample.store0 st' E)
    as (Ha & _ & _ & _ & Hm & Hk & _).
  split; [reflexivity|]. split; [exact Ha|]. split; [|exact Hm].
  rewrite Hk; [reflexivity|discriminate].
Defined.

(** X2: unit normalization is idempotent: a field it has returned is
    returned unchanged when it is normalized again for the same variable,
    so that no value is scaled twice. *)
Theorem standardize_units_idempotent (da da' : DataArray) (varn : string)
    (st st' st2 : Store)
    (Hrun : standardize_units da varn st = (inr (Some da'), st')) :
  fst (standardize_units da' varn st2) = inr (Some da').
Proof.
  revert Hrun. unfold standardize_units, not_covered.
  destruct (attr_get "units" (da_attrs da)) as [unit|] eqn:Eu.
  2: { unfold bind, log, emit, ret. simpl. intros H. discriminate. }
  repeat match goal with
         | |- (if ?b then _ else _) _ = _ -> _ => destruct b eqn:?
         | |- bind (lift ?r) _ _ = _ -> _ =>
             unfold bind at 1, lift at 1; destruct r eqn:?
         | |- ret (Some _) _ = _ -> _ =>
             unfold ret at 1; intros H; injection H as <- <-
         | |- raise _ _ = _ -> _ => intros H; discriminate
         | |- (_, _) = _ -> _ => intros H; discriminate
         | |- bind (log _ _) _ _ = _ -> _ =>
             unfold bind at 1, log at 1, emit at 1, ret at 1; simpl;
             intros H; injection H as <- <-
         end;
    unfold set_units, with_attrs, with_data; cbn [da_attrs];
    rewrite ?attr_get_set, ?Eu;
    repeat match goal with
           | H : ?c = _ |- context [?c] => rewrite H
           end;
    try reflexivity;
    unfold bind, lift;
    repeat match goal with
           | H : ?c = _ |- context [?c] => rewrite H
           end;
    reflexivity.
Qed.

(** A temperature in kelvin, normalized once and once more. *)
Lemma standardize_units_idempotent_witness :
  exists da',
    fst (standardize_units Sample.tas_K "tas" Sample.store0) = inr (Some da')
    /\ attr_get "units" (da_attrs da') = Some (AStr "degC")
    /\ fst (standardize_units da' "tas" Sample.store0) = inr (Some da').
Proof.
  destruct (standardize_units Sample.tas_K "tas" Sample.store0)
    as [[e|[da'|]] st'] eqn:E; try (vm_compute in E; discriminate).
  exists da'. split; [reflexivity|]. split.
  - vm_compute in E. injection E as <- _. reflexivity.
  - apply (standardize_units_idempotent Sample.tas_K da' "tas" Sample.store0 st'
             Sample.store0 E).
Defined.



(** ** The name of the output file, continued *)

Lemma str_items_strings (l : list string) : str_items (map VStr l) = inr l.
Proof.
  induction l as [|s l IH]; simpl; [reflexivity|].
  rewrite IH. reflexivity.
Qed.

(** X4: a list of regions is rendered by joining its names with ['-'], so
    a list of regions and the single region called by the joined name get
    one and the same output file. *)
Theorem region_list_joined (base infile : string) (names : list string)
    (rest : kwargs) :
  get_outfile base infile (("region", VList (map VStr names)) :: rest)
  = get_outfile base infile (("region", VStr (PyStr.join "-" names)) :: rest).
Proof.
  unfold get_outfile, kw_mem, kw_item. cbn [kw_get String.eqb Ascii.eqb Bool.eqb].
  destruct (kw_get "infile" rest); [reflexivity|].
  cbn [ebind ok]. rewrite str_items_strings. reflexivity.
Qed.

(** X5: [get_outfile] returns a path exactly when the caller passes no
    [infile] keyword of its own, passes [region], [time_period], [season]
    and [time_aggregation], the time window has an item 0 and an item 1,
    and a region given as a list holds strings only; in every other case
    it raises. *)
Theorem get_outfile_succeeds_iff (base infile : string) (kw : kwargs) :
  (exists p, get_outfile base infile kw = inr p)
  <-> kw_mem "infile" kw = false
      /\ naming_arguments_supplied kw
      /\ (forall region, kw_get "region" kw = Some region ->
            region_joinable region = true).
Proof.
  split.
  - intros (p & H). split; [|split].
    + apply (get_outfile_inr _ _ _ _ H).
    + apply (get_outfile_supplied _ _ _ _ H).
    + intros region Hr. revert H. unfold get_outfile, kw_item.
      destruct (kw_mem "infile" kw); [discriminate|]. rewrite Hr.
      cbn [ebind ok]. destruct region; try reflexivity.
      simpl. destruct (str_items l); [discriminate|reflexivity].
  - intros (Hi & (tp & t0 & t1 & s & a & r & Ht & H0 & H1 & Hs & Ha & Hr) & Hj).
    specialize (Hj r Hr).
    unfold get_outfile, kw_item. rewrite Hi, Hr, Ht, Hs, Ha.
    unfold ebind, ok.
    destruct r; simpl in Hj; try destruct (str_items l); try discriminate;
      rewrite H0, H1; eexists; reflexivity.
Qed.




Lemma ends_with_refl (s : string) : ends_with s s = true.
Proof. destruct s; simpl; rewrite ?String.eqb_refl, ?Ascii.eqb_refl; reflexivity. Qed.







(** ** What the pipeline does to the files *)






















(** X8: the stored result.  With [overwrite] off and a dataset in the
    output file, the call logs a debug record, reads that dataset and
    returns it: the input file is not opened and no argument is looked at,
    so a missing input or an unknown season goes unnoticed.  With
    [overwrite] on the stored dataset is not read: the call is the fresh
    computation. *)
Theorem stored_result_returned (L : Lib) (infile varn p : string)
    (a : BasicArgs) (st : Store) (ds : Dataset)
    (Hfile : file_get p (files st) = Some (NetCDF ds)) :
  (truthy (overwrite a) = false ->
   calculate_basic_diagnostic L infile varn (Some p) a st
   = (inr ds, mkStore (files st)
                (events st ++ [EvLog "DEBUG" cache_msg; EvOpen p])))
  /\ (truthy (overwrite a) = true ->
      calculate_basic_diagnostic L infile varn (Some p) a st
      = compute_basic L infile varn (Some p) a st).
Proof.
  unfold calculate_basic_diagnostic. split; intros ->; [|reflexivity].
  unfold open_dataset, isfile, log, bind, emit. simpl. rewrite Hfile. simpl.
  rewrite Hfile, <- app_assoc. reflexivity.
Qed.

(** A stored result is returned for a request that could not be computed. *)
Lemma stored_result_returned_witness :
  calculate_basic_diagnostic Sample.lib "/data/missing.nc" "tas"
    (Some "/out/x.nc") args_bad_season store_result_only
  = (inr [("tas", Sample.tas_K)],
     mkStore (files store_result_only)
             [EvLog "DEBUG" cache_msg; EvOpen "/out/x.nc"]).
Proof.
  destruct (stored_result_returned Sample.lib "/data/missing.nc" "tas" "/out/x.nc"
              args_bad_season store_result_only [("tas"%string, Sample.tas_K)] eq_refl)
    as [H _].
  apply (H eq_refl).
Defined.

(** ** Where a result comes from *)

Lemma open_dataset_inr (p : string) (st st' : Store) (ds : Dataset) :
  open_dataset p st = (inr ds, st') ->
  file_get p (files st) = Some (NetCDF ds).
Proof.
  unfold open_dataset, bind, emit. simpl.
  destruct (file_get p (files st)) as [[ds'|rows]|]; intros H; inversion H.
  reflexivity.
Qed.

(** X9: every dataset that a computation without regridding returns comes
    from the variable of the input file, whose coordinates, once the
    dimensions are standardized, are exactly those of the fixed grid; it
    holds that one variable, under its name, with the encoding the variable
    has in the file. *)
Theorem result_provenance (L : Lib) (infile varn : string)
    (outfile : option string) (a : BasicArgs) (st st' : Store) (ds : Dataset)
    (Hregrid : truthy (regrid a) = false)
    (Hrun : compute_basic L infile varn outfile a st = (inr ds, st')) :
  exists ds0 da0 da1 da,
    file_get infile (files st) = Some (NetCDF ds0)
    /\ ds_get varn ds0 = Some da0
    /\ standardize_dimensions L da0 = inr da1
    /\ coords_eqb (da_lat da1) grid_lat = true
    /\ coords_eqb (da_lon da1) grid_lon = true
    /\ ds = [(varn, da)]
    /\ da_encoding da = da_encoding da0.
Proof.
  revert Hrun. unfold compute_basic. rewrite Hregrid. intros H.
  rewrite (bind_step _ _ st st infile eq_refl) in H.
  apply bind_inr in H as (ds0 & s2 & Ho & H).
  apply open_dataset_inr in Ho.
  apply bind_inr in H as (da0 & s3 & Hv & H).
  apply lift_inr in Hv as [Hv _].
  apply bind_inr in H as (da1 & s4 & Hd & H).
  apply lift_inr in Hd as [Hd _].
  apply bind_inr in H as ([] & s5 & _ & H).
  destruct (coords_eqb (da_lat da1) grid_lat) eqn:Elat; [|discriminate].
  destruct (coords_eqb (da_lon da1) grid_lon) eqn:Elon; [|discriminate].
  cbn [negb] in H.
  apply bind_inr in H as (da2 & s6 & _ & H).
  apply bind_inr in H as (da3 & s7 & _ & H).
  apply bind_inr in H as (da4 & s8 & _ & H).
  apply bind_inr in H as (da5 & s9 & _ & H).
  apply bind_inr in H as ([] & s10 & _ & H).
  apply bind_inr in H as (r & s11 & _ & H).
  destruct r as [da6|]; [|discriminate].
  apply bind_inr in H as ([] & s12 & _ & H).
  apply bind_inr in H as ([da7 attrs7] & s13 & _ & H).
  apply bind_inr in H as ([] & s14 & _ & H).
  unfold ret in H. injection H as <- _.
  exists ds0, da0, da1, (with_encoding (with_attrs da7 attrs7) (da_encoding da0)).
  unfold ds_item in Hv. destruct (ds_get varn ds0) as [da0'|]; [|discriminate].
  injection Hv as ->.
  repeat split; try assumption; reflexivity.
Qed.

(** The encoding of the sample field survives a climatology. *)
Lemma result_provenance_witness :
  exists da,
    fst (compute_basic Sample.lib Sample.tas_file "tas" None args_jja_clim
           store_encoded) = inr [("tas"%string, da)]
    /\ da_encoding da = da_encoding tas_encoded.
Proof.
  destruct (compute_basic Sample.lib Sample.tas_file "tas" None args_jja_clim
              store_encoded) as [[e|ds] st'] eqn:E.
  - vm_compute in E. discriminate.
  - destruct (result_provenance Sample.lib Sample.tas_file "tas" None
                args_jja_clim store_encoded st' ds eq_refl E)
      as (ds0 & da0 & da1 & da & Hf & Hv & _ & _ & _ & -> & He).
    exists da. split; [reflexivity|].
    vm_compute in Hf. injection Hf as <-.
    vm_compute in Hv. injection Hv as <-. exact He.
Defined.

(** X10: what stops a computation at its input.  A missing input file is
    a [FileNotFoundError], a file without the variable a [KeyError] of the
    variable's name, and a field whose latitudes or longitudes are not
    those of the fixed grid an [AssertionError]; in each case no selection,
    no unit normalization and no reduction is run, and no file is
    written. *)
Theorem input_refused (L : Lib) (infile varn : string)
    (outfile : option string) (a : BasicArgs) (st : Store)
    (Hregrid : truthy (regrid a) = false) :
  (file_get infile (files st) = None ->
   compute_basic L infile varn outfile a st
   = (inl (FileNotFoundError infile),
      mkStore (files st) (events st ++ [EvOpen infile])))
  /\ (forall ds0,
        file_get infile (files st) = Some (NetCDF ds0) ->
        ds_get varn ds0 = None ->
        compute_basic L infile varn outfile a st
        = (inl (KeyError varn),
           mkStore (files st) (events st ++ [EvOpen infile])))
  /\ (forall ds0 da0 da1,
        file_get infile (files st) = Some (NetCDF ds0) ->
        ds_get varn ds0 = Some da0 ->
        standardize_dimensions L da0 = inr da1 ->
        coords_eqb (da_lat da1) grid_lat && coords_eqb (da_lon da1) grid_lon
        = false ->
        compute_basic L infile varn outfile a st
        = (inl (AssertionError ""),
           mkStore (files st)
                   (events st ++ [EvOpen infile; EvStage StValidate]))).
Proof.
  unfold compute_basic. rewrite Hregrid.
  rewrite (bind_step _ _ st st infile eq_refl).
  split; [|split].
  - intros Hf. unfold open_dataset, bind, emit. simpl. rewrite Hf. reflexivity.
  - intros ds0 Hf Hv. unfold open_dataset, ds_item, bind, emit, lift. simpl.
    rewrite Hf. simpl. rewrite Hv. reflexivity.
  - intros ds0 da0 da1 Hf Hv Hd Hg.
    unfold open_dataset, ds_item, bind, emit, lift, stage, emit. simpl.
    rewrite Hf. simpl. rewrite Hv. simpl. rewrite Hd. simpl.
    rewrite <- app_assoc. simpl.
    apply andb_false_iff in Hg as [Hg|Hg]; rewrite Hg; simpl; [reflexivity|].
    destruct (coords_eqb (da_lat da1) grid_lat); reflexivity.
Qed.

(** A field on a grid of one degree is refused. *)
Lemma input_refused_witness :
  compute_basic Sample.lib Sample.tas_file "tas" None Sample.args0
    store_one_degree
  = (inl (AssertionError ""),
     mkStore (files store_one_degree)
             [EvOpen Sample.tas_file; EvStage StValidate]).
Proof.
  destruct (input_refused Sample.lib Sample.tas_file "tas" None Sample.args0
              store_one_degree eq_refl) as (_ & _ & H).
  apply (H [("tas"%string, tas_one_degree)] tas_one_degree tas_one_degree
           eq_refl eq_refl eq_refl).
  vm_compute. reflexivity.
Defined.

(** ** The selection of a season *)

(** X11: a season that is none of ['JJA'], ['SON'], ['DJF'], ['MAM'],
    ['ANN'] and [None] stops the computation of a field that passed the
    validation of the grid with a [NotImplementedError] that names it;
    the comparison is case-sensitive, nothing is selected, normalized or
    written. *)
Theorem unknown_season_refused (L : Lib) (infile varn : string)
    (outfile : option string) (a : BasicArgs) (st : Store)
    (ds0 : Dataset) (da0 da1 : DataArray)
    (Hregrid : truthy (regrid a) = false)
    (Hfile : file_get infile (files st) = Some (NetCDF ds0))
    (Hvar : ds_get varn ds0 = Some da0)
    (Hdims : standardize_dimensions L da0 = inr da1)
    (Hlat : coords_eqb (da_lat da1) grid_lat = true)
    (Hlon : coords_eqb (da_lon da1) grid_lon = true)
    (Hperiod : time_period a = VNone)
    (Hseason : unknown_season (season a) = true) :
  compute_basic L infile varn outfile a st
  = (inl (NotImplementedError ("season=" ++ py_str (season a))),
     mkStore (files st) (events st ++ [EvOpen infile; EvStage StValidate])).
Proof.
  unfold unknown_season in Hseason.
  apply andb_true_iff in Hseason as [Hs Hann].
  apply andb_true_iff in Hs as [Hfour Hnone].
  apply negb_true_iff in Hfour, Hnone, Hann.
  unfold compute_basic. rewrite Hregrid.
  rewrite (bind_step _ _ st st infile eq_refl).
  unfold open_dataset, ds_item, bind, emit, lift, stage, emit. simpl.
  rewrite Hfile. simpl. rewrite Hvar. simpl. rewrite Hdims. simpl.
  rewrite Hlat, Hlon. simpl.
  unfold select_time. rewrite Hperiod. simpl.
  unfold select_season. rewrite Hfour, Hnone, Hann. simpl.
  rewrite <- app_assoc. reflexivity.
Qed.

(** The season ['jja'] in lower case is refused. *)
Lemma unknown_season_refused_witness :
  compute_basic Sample.lib Sample.tas_file "tas" (Some "/out/x.nc")
    args_lower_season Sample.store0
  = (inl (NotImplementedError "season=jja"),
     mkStore (files Sample.store0) [EvOpen Sample.tas_file; EvStage StValidate]).
Proof.
  apply (unknown_season_refused Sample.lib Sample.tas_file "tas"
           (Some "/out/x.nc"%string) args_lower_season Sample.store0
           [("tas"%string, Sample.tas_K)] Sample.tas_K Sample.tas_K
           eq_refl eq_refl eq_refl eq_refl);
    vm_compute; reflexivity.
Defined.

Lemma pick_axis (f : Date -> bool) (ts : list Date) :
  map snd (filter fst (combine (map f ts) ts)) = filter f ts.
Proof.
  induction ts as [|t ts IH]; simpl; [reflexivity|].
  destruct (f t); simpl; rewrite IH; reflexivity.
Qed.

Lemma pick_paired {A} (f : Date -> bool) (ts : list Date) (d : list A) :
  combine (filter f ts) (map snd (filter fst (combine (map f ts) d)))
  = filter (fun p => f (fst p)) (combine ts d).
Proof.
  revert d. induction ts as [|t ts IH]; intros d; [reflexivity|].
  destruct d as [|x d]; simpl.
  - apply combine_nil.
  - destruct (f t); simpl; rewrite IH; reflexivity.
Qed.

Lemma pick_length {A} (f : Date -> bool) (ts : list Date) (d : list A) :
  length ts = length d ->
  length (map snd (filter fst (combine (map f ts) d))) = length (filter f ts).
Proof.
  revert d. induction ts as [|t ts IH]; intros [|x d] Hl; simpl in *;
    try discriminate; [reflexivity|].
  injection Hl as Hl. destruct (f t); simpl; rewrite (IH d Hl); reflexivity.
Qed.

(** X12: the selection of a season keeps the time steps whose month lies
    in the season, in their order, each with its own slice of the data; an
    array with as many slices as time steps stays so, and the coordinates
    and attributes are kept.  December, January and February make ['DJF'],
    the next three months ['MAM'], then ['JJA'] and ['SON']. *)
Theorem season_selection (s : string) (da da' : DataArray)
    (Hsel : isel_season s da = inr da') :
  exists ts ts',
    da_axis da = AxTime ts /\ da_axis da' = AxTime ts'
    /\ ts' = filter (in_season s) ts
    /\ (forall t, In t ts' -> In t ts /\ season_of (month t) = s)
    /\ combine ts' (da_data da')
       = filter (fun p => in_season s (fst p)) (combine ts (da_data da))
    /\ (length ts = length (da_data da) -> length ts' = length (da_data da'))
    /\ da_lat da' = da_lat da /\ da_lon da' = da_lon da
    /\ da_attrs da' = da_attrs da
    /\ (forall m, (1 <= m <= 12)%Z ->
          season_of m
          = if ((m =? 12) || (m <=? 2))%Z then "DJF"%string
            else if (m <=? 5)%Z then "MAM"%string
            else if (m <=? 8)%Z then "JJA"%string
            else "SON"%string).
Proof.
  revert Hsel. unfold isel_season, time_axis, ebind.
  destruct (da_axis da) as [ts| | |] eqn:Eax; try discriminate.
  intros H. injection H as <-.
  exists ts, (filter (in_season s) ts). cbn [da_axis da_data with_axis da_lat da_lon da_attrs].
  split; [reflexivity|]. split; [apply f_equal, pick_axis|].
  split; [reflexivity|]. split; [|split; [|split]].
  - intros t Ht. apply filter_In in Ht as [Hin Hs].
    split; [exact Hin|]. apply String.eqb_eq. exact Hs.
  - apply pick_paired.
  - intros Hl. symmetry. apply pick_length. exact Hl.
  - repeat split. intros m Hm.
    assert (Hcases : (m = 1 \/ m = 2 \/ m = 3 \/ m = 4 \/ m = 5 \/ m = 6
                      \/ m = 7 \/ m = 8 \/ m = 9 \/ m = 10 \/ m = 11
                      \/ m = 12)%Z) by lia.
    repeat (destruct Hcases as [->|Hcases]; [reflexivity|]).
    subst m. reflexivity.
Qed.

(** The summer steps of the sample field. *)
Lemma season_selection_witness :
  exists da',
    isel_season "JJA" Sample.tas_K = inr da'
    /\ da_axis da' = AxTime [mkDate 2000 7 15; mkDate 2001 7 15]
    /\ length (da_data da') = 2.
Proof.
  destruct (isel_season "JJA" Sample.tas_K) as [e|da'] eqn:E.
  - vm_compute in E. discriminate.
  - destruct (season_selection "JJA" Sample.tas_K da' E)
      as (ts & ts' & Ha & Ha' & Hts & _ & _ & Hl & _).
    vm_compute in Ha. injection Ha as <-.
    exists da'. split; [reflexivity|]. subst ts'. split; [exact Ha'|].
    rewrite <- Hl; reflexivity.
Defined.

(** ** The union of regions *)





(** ** A region given by a file of corners *)

Lemma qmin_le_l (a b : Q) : (qmin a b <= a)%Q.
Proof.
  unfold qmin. destruct (Qle_bool a b) eqn:E; [apply Qle_refl|].
  apply Qlt_le_weak. apply Qnot_le_lt. intros H.
  apply Qle_bool_iff in H. rewrite H in E. discriminate.
Qed.

Lemma qmin_le_r (a b : Q) : (qmin a b <= b)%Q.
Proof.
  unfold qmin. destruct (Qle_bool a b) eqn:E; [|apply Qle_refl].
  apply Qle_bool_iff. exact E.
Qed.

Lemma qmax_ge_l (a b : Q) : (a <= qmax a b)%Q.
Proof.
  unfold qmax. destruct (Qle_bool a b) eqn:E; [|apply Qle_refl].
  apply Qle_bool_iff. exact E.
Qed.

Lemma qmax_ge_r (a b : Q) : (b <= qmax a b)%Q.
Proof.
  unfold qmax. destruct (Qle_bool a b) eqn:E; [apply Qle_refl|].
  apply Qlt_le_weak. apply Qnot_le_lt. intros H.
  apply Qle_bool_iff in H. rewrite H in E. discriminate.
Qed.

(** X14: a region that is no SREX abbreviation is read from its corner
    file.  Without the file the selection fails with a [ValueError] that
    names the path; with four corners of which one lies outside
    [-180, 180] x [-90, 90] it fails with the [ValueError] of a wrong
    value; otherwise the field is handed to [salem] with a box that
    contains the four corners, whatever their order. *)
Theorem custom_region_corners (L : Lib) (name : string) (da : DataArray)
    (st : Store) :
  (file_get (regionfile L name) (files st) = None ->
   custom_region L name da st
   = (inl (ValueError (regionfile L name ++ " is not a valid regionfile")), st))
  /\ (forall x0 y0 x1 y1 x2 y2 x3 y3,
        file_get (regionfile L name) (files st)
        = Some (Text [[x0; y0]; [x1; y1]; [x2; y2]; [x3; y3]]) ->
        let lonmin := qmin (qmin x0 x1) (qmin x2 x3) in
        let latmin := qmin (qmin y0 y1) (qmin y2 y3) in
        let lonmax := qmax (qmax x0 x1) (qmax x2 x3) in
        let latmax := qmax (qmax y0 y1) (qmax y2 y3) in
        let st1 := mkStore (files st) (events st ++ [EvOpen (regionfile L name)]) in
        (forall x y, In [x; y] [[x0; y0]; [x1; y1]; [x2; y2]; [x3; y3]] ->
           (lonmin <= x <= lonmax)%Q /\ (latmin <= y <= latmax)%Q)
        /\ (out_of_range lonmin latmin lonmax latmax = true ->
            custom_region L name da st
            = (inl (ValueError ("Wrong lat/lon value in " ++ regionfile L name)), st1))
        /\ (out_of_range lonmin latmin lonmax latmax = false ->
            custom_region L name da st
            = match salem_roi L (lonmin, latmin) (lonmax, latmax) da with
              | inl e => (inl e, st1)
              | inr da1 =>
                  (salem_subset_corners L (lonmin, latmin) (lonmax, latmax) 1 da1,
                   st1)
              end)).
Proof.
  split.
  - intros Hf. unfold custom_region. fold (regionfile L name).
    unfold bind, isfile, raise. simpl. rewrite Hf. reflexivity.
  - intros x0 y0 x1 y1 x2 y2 x3 y3 Hf lonmin latmin lonmax latmax st1.
    unfold custom_region. fold (regionfile L name).
    split; [|split].
    + intros x y Hin.
      assert (Hc : (x = x0 /\ y = y0) \/ (x = x1 /\ y = y1)
                   \/ (x = x2 /\ y = y2) \/ (x = x3 /\ y = y3)).
      { destruct Hin as [E|[E|[E|[E|[]]]]]; injection E as <- <-; tauto. }
      unfold lonmin, latmin, lonmax, latmax.
      destruct Hc as [[-> ->]|[[-> ->]|[[-> ->]|[-> ->]]]]; repeat split;
        eauto using Qle_trans, qmin_le_l, qmin_le_r, qmax_ge_l, qmax_ge_r.
    + intros Ho. unfold out_of_range in Ho.
      unfold bind at 1, isfile. simpl. rewrite Hf. simpl.
      unfold bind at 1, loadtxt, bind, emit. simpl. rewrite Hf. simpl.
      fold lonmin latmin lonmax latmax. rewrite Ho. reflexivity.
    + intros Ho. unfold out_of_range in Ho.
      unfold bind at 1, isfile. simpl. rewrite Hf. simpl.
      unfold bind at 1, loadtxt, bind, emit. simpl. rewrite Hf. simpl.
      fold lonmin latmin lonmax latmax. rewrite Ho.
      unfold lift. destruct (salem_roi L (lonmin, latmin) (lonmax, latmax) da);
        reflexivity.
Qed.

(** A corner at 190 degrees east is refused. *)
Lemma custom_region_corners_witness :
  custom_region Sample.lib "BOX" Sample.tas_K store_bad_corners
  = (inl (ValueError "Wrong lat/lon value in functions/../cdo_data/BOX.txt"),
     mkStore (files store_bad_corners) [EvOpen "functions/../cdo_data/BOX.txt"]).
Proof.
  destruct (custom_region_corners Sample.lib "BOX" Sample.tas_K store_bad_corners)
    as [_ H].
  destruct (H 170 (-10) 170 10 190 10 190 (-10) eq_refl)%Q as (_ & Ho & _).
  apply Ho. vm_compute. reflexivity.
Defined.

(** ** The trend and the monthly cycle *)

(** X15: the TREND aggregation of a field with a time axis, when it
    returns, leaves one slice without a time axis whose cells are the
    results of [trend] on the series of the cells, so that a cell with a
    missing time step is missing whatever the regression of the library
    does; the [units] attribute becomes the old unit followed by
    [' year**-1'], and nothing is logged or written. *)
Theorem trend_aggregation (L : Lib) (da da' : DataArray) (a a' : attrs)
    (st st' : Store)
    (Hrun : aggregate L (VStr "TREND") da a st = (inr (da', a'), st')) :
  exists sl u,
    da_axis da' = AxNone /\ da_data da' = [sl]
    /\ attr_get "units" a = Some u
    /\ a' = attr_set "units" (AStr (attr_str u ++ " year**-1")) a
    /\ st' = st
    /\ forall i j, i < length (da_lat da) -> j < length (da_lon da) ->
         trend L (series_at (da_data da) i j) = inr (nth j (nth i sl []) NaN)
         /\ (any_nan (series_at (da_data da) i j) = true ->
             nth j (nth i sl []) NaN = NaN).
Proof.
  revert Hrun. unfold aggregate.
  cbn [eq_str String.eqb Ascii.eqb Bool.eqb]. intros H.
  apply bind_inr in H as (ts & s1 & Ht & H). apply lift_inr in Ht as [_ ->].
  apply bind_inr in H as (sl & s2 & Hs & H). apply lift_inr in Hs as [Hs ->].
  apply bind_inr in H as (u & s3 & Hu & H). apply lift_inr in Hu as [Hu ->].
  unfold ret in H. injection H as <- <- <-.
  exists sl, u. split; [reflexivity|]. split; [reflexivity|].
  split; [destruct (attr_get "units" a); inversion Hu; reflexivity|].
  split; [reflexivity|]. split; [reflexivity|].
  intros i j Hi Hj.
  pose proof (emap_nth _ _ _ i 0 [] Hs) as Hrow.
  rewrite length_seq, seq_nth in Hrow by exact Hi. simpl in Hrow.
  specialize (Hrow Hi).
  pose proof (emap_nth _ _ _ j 0 NaN Hrow) as Hcell.
  rewrite length_seq, seq_nth in Hcell by exact Hj. simpl in Hcell.
  specialize (Hcell Hj). split; [exact Hcell|].
  intros Hn. rewrite (trend_nan L _ Hn) in Hcell. injection Hcell as <-.
  reflexivity.
Qed.

(** The trend of a field with a gap. *)
Lemma trend_aggregation_witness :
  exists da' sl,
    fst (aggregate Sample.lib (VStr "TREND") tas_gap_K (da_attrs tas_gap_K)
           Sample.store0)
    = inr (da', [("units", AStr "degC year**-1")])
    /\ da_data da' = [sl] /\ nth 0 (nth 0 sl []) NaN = NaN.
Proof.
  destruct (aggregate Sample.lib (VStr "TREND") tas_gap_K (da_attrs tas_gap_K)
              Sample.store0) as [[e|[da' a']] st'] eqn:E.
  - vm_compute in E. discriminate.
  - destruct (trend_aggregation _ _ _ _ _ _ _ E)
      as (sl & u & _ & Hd & Hu & -> & _ & Hc).
    vm_compute in Hu. injection Hu as <-.
    exists da', sl. split; [reflexivity|]. split; [exact Hd|].
    apply (Hc 0 0); try (apply Nat.ltb_lt; vm_compute; reflexivity).
    vm_compute. reflexivity.
Defined.







(** ** Masks *)

Lemma where_row_cell (m : list bool) (r : list cell) (j : nat) :
  nth j (where_row m r) NaN = if nth j m false then nth j r NaN else NaN.
Proof.
  revert m j. induction r as [|c r IH]; intros m j.
  - destruct j; simpl; destruct (nth _ m false); reflexivity.
  - destruct m as [|[|] m]; destruct j as [|j]; simpl; try reflexivity;
      try apply IH.
    rewrite (IH [] j). destruct j; reflexivity.
Qed.

Lemma where_slice_cell (m : grid bool) (sl : grid cell) (i j : nat) :
  nth j (nth i (where_slice m sl) []) NaN
  = if nth j (nth i m []) false then nth j (nth i sl []) NaN else NaN.
Proof.
  revert m i. induction sl as [|r sl IH]; intros m i.
  - destruct i; simpl; destruct j; simpl;
      match goal with |- _ = if ?b then _ else _ => destruct b end; reflexivity.
  - destruct m as [|mr m]; destruct i as [|i]; simpl.
    + rewrite where_row_cell. reflexivity.
    + rewrite (IH [] i). destruct i; reflexivity.
    + apply where_row_cell.
    + apply IH.
Qed.

Lemma mask_of_cell (f : Q -> Q -> bool) (lat lon : list Q) (i j : nat) :
  i < length lat -> j < length lon ->
  nth j (nth i (mask_of f lat lon) []) false = f (nth i lat 0%Q) (nth j lon 0%Q).
Proof.
  intros Hi Hj. unfold mask_of.
  rewrite (nth_indep _ [] (map (fun lo => f 0%Q lo) lon))
    by (rewrite length_map; exact Hi).
  rewrite (map_nth (fun la => map (fun lo => f la lo) lon)).
  rewrite (nth_indep _ false (f (nth i lat 0%Q) 0%Q))
    by (rewrite length_map; exact Hj).
  rewrite (map_nth (fun lo => f (nth i lat 0%Q) lo)). reflexivity.
Qed.

Lemma series_at_where (m : grid bool) (d : list (grid cell)) (i j : nat) :
  series_at (map (where_slice m) d) i j
  = if nth j (nth i m []) false then series_at d i j
    else map (fun _ => NaN) (series_at d i j).
Proof.
  unfold series_at. rewrite map_map.
  destruct (nth j (nth i m []) false) eqn:E.
  - apply map_ext. intros sl. rewrite where_slice_cell, E. reflexivity.
  - rewrite map_map. apply map_ext. intros sl.
    rewrite where_slice_cell, E. reflexivity.
Qed.

(** X17: the ocean mask.  With [mask_ocean] set, the series of a grid
    cell is kept as it is when the land mask has the code 0 at the cell's
    coordinates and becomes missing at every time step otherwise; the
    coordinates, the axis and the number of slices do not change, and the
    selection cannot fail.  Without [mask_ocean] the field is returned as
    it is. *)
Theorem land_cells_kept (L : Lib) (mask_ocean : pyval) (da : DataArray)
    (st : Store) :
  (truthy mask_ocean = true ->
   exists da',
     select_land L mask_ocean da st
     = (inr da', mkStore (files st) (events st ++ [EvStage StOceanMask]))
     /\ da_axis da' = da_axis da /\ da_lat da' = da_lat da
     /\ da_lon da' = da_lon da /\ da_attrs da' = da_attrs da
     /\ length (da_data da') = length (da_data da)
     /\ forall i j, i < length (da_lat da) -> j < length (da_lon da) ->
          series_at (da_data da') i j
          = if code_is (land_110_mask L) 0 (nth i (da_lat da) 0%Q)
                       (nth j (da_lon da) 0%Q)
            then series_at (da_data da) i j
            else map (fun _ => NaN) (series_at (da_data da) i j))
  /\ (truthy mask_ocean = false -> select_land L mask_ocean da st = (inr da, st)).
Proof.
  unfold select_land. split; intros ->; [|reflexivity].
  eexists. split; [reflexivity|].
  cbn [da_where with_data da_axis da_lat da_lon da_attrs da_data].
  repeat split; try apply length_map.
  intros i j Hi Hj. rewrite series_at_where, mask_of_cell by assumption.
  reflexivity.
Qed.

(** The land mask on the sample field: a cell at 1.25E is kept, a cell at
    178.75W is not. *)
Lemma land_cells_kept_witness :
  exists da',
    fst (select_land Sample.lib (VBool true) Sample.tas_K Sample.store0) = inr da'
    /\ series_at (da_data da') 0 72 = series_at (da_data Sample.tas_K) 0 72
    /\ series_at (da_data da') 0 0 = [NaN; NaN; NaN].
Proof.
  destruct (land_cells_kept Sample.lib (VBool true) Sample.tas_K Sample.store0)
    as [H _].
  destruct (H eq_refl) as (da' & E & _ & _ & _ & _ & _ & Hc).
  exists da'. split; [rewrite E; reflexivity|]. split.
  - rewrite Hc by (apply Nat.ltb_lt; vm_compute; reflexivity).
    vm_compute. reflexivity.
  - rewrite Hc by (apply Nat.ltb_lt; vm_compute; reflexivity).
    vm_compute. reflexivity.
Defined.

(** ** The net radiation *)

(** X18: the four flux names must be given as the tuple
    [('rlds', 'rlus', 'rsds', 'rsus')].  Anything else fails the assertion
    before a file is opened, and a list never equals the tuple: the
    derivation [{'rnet': [...]}] written with a list of names stops with an
    [AssertionError] whatever the names and the other arguments are. *)
Theorem flux_names_tuple (L : Lib) (infile base : string) (kw : kwargs)
    (st : Store) :
  (forall varns outname diagn,
      is_flux_tuple varns = false ->
      calculate_net_radiation infile varns outname diagn st
      = (inl (AssertionError ""), st))
  /\ (forall l, is_flux_tuple (VList l) = false)
  /\ (forall v0 rest,
        calculate_diagnostic L infile
          (DDict [(VStr "rnet", VList (VStr v0 :: rest))]) base kw st
        = (inl (AssertionError ""), st)).
Proof.
  split; [|split].
  - intros varns outname diagn H. unfold calculate_net_radiation.
    rewrite H. reflexivity.
  - reflexivity.
  - intros v0 rest. reflexivity.
Qed.





(** ** Correlations *)

Lemma eq_str_true (v : pyval) (s : string) : eq_str v s = true -> v = VStr s.
Proof.
  destruct v; simpl; try discriminate.
  intros H. apply String.eqb_eq in H. subst. reflexivity.
Qed.

(** X20: derivations that are refused before any file is read.  A
    dictionary that does not have exactly one entry fails its assertion; a
    derivation other than ['rnet'] needs the keyword [time_aggregation];
    a correlation of a number of variables other than two, or of a variable
    with itself, fails the assertion made for it. *)
Theorem derivation_refused (L : Lib) (infile base : string) (kw : kwargs)
    (st : Store) :
  (forall items, length items <> 1 ->
     calculate_diagnostic L infile (DDict items) base kw st
     = (inl (AssertionError ""), st))
  /\ (forall key varns,
        eq_str key "rnet" = false -> kw_get "time_aggregation" kw = None ->
        calculate_diagnostic L infile (DDict [(key, varns)]) base kw st
        = (inl (KeyError "time_aggregation"), st))
  /\ (forall key varns n,
        eq_str key "rnet" = false ->
        kw_get "time_aggregation" kw = Some (VStr "CORR") ->
        py_len varns = inr n -> n <> 2 ->
        calculate_diagnostic L infile (DDict [(key, varns)]) base kw st
        = (inl (AssertionError "can only correlate two variables"), st))
  /\ (forall key varns v0 v1,
        eq_str key "rnet" = false ->
        kw_get "time_aggregation" kw = Some (VStr "CORR") ->
        py_len varns = inr 2 ->
        subscript varns 0 = inr v0 -> subscript varns 1 = inr v1 ->
        py_eqb v0 v1 = true ->
        calculate_diagnostic L infile (DDict [(key, varns)]) base kw st
        = (inl (AssertionError "can not correlate same variables"), st)).
Proof.
  split; [|split; [|split]].
  - intros items Hl. unfold calculate_diagnostic.
    destruct items as [|[key varns] [|]]; try reflexivity.
    destruct Hl. reflexivity.
  - intros key varns Hk Ha. unfold calculate_diagnostic, kw_item, bind, lift.
    rewrite Hk, Ha. reflexivity.
  - intros key varns n Hk Ha Hn Hne.
    unfold calculate_diagnostic, kw_item, bind, lift.
    rewrite Hk, Ha. cbn [ok eq_str String.eqb Ascii.eqb Bool.eqb].
    rewrite Hn. apply Nat.eqb_neq in Hne. rewrite Hne. reflexivity.
  - intros key varns v0 v1 Hk Ha Hn H0 H1 He.
    unfold calculate_diagnostic, kw_item, bind, lift.
    rewrite Hk, Ha. cbn [ok eq_str String.eqb Ascii.eqb Bool.eqb].
    rewrite Hn. cbn [Nat.eqb negb]. rewrite H0, H1, He. reflexivity.
Qed.

(** The correlation of ['tas'] with itself. *)
Lemma derivation_refused_witness :
  calculate_diagnostic Sample.lib Sample.tas_file
    (DDict [(VStr "tastas", VList [VStr "tas"; VStr "tas"])]) "/out" kw_corr
    Sample.store0
  = (inl (AssertionError "can not correlate same variables"), Sample.store0).
Proof.
  destruct (derivation_refused Sample.lib Sample.tas_file "/out" kw_corr
              Sample.store0) as (_ & _ & _ & H).
  apply (H (VStr "tastas") (VList [VStr "tas"; VStr "tas"]) (VStr "tas") (VStr "tas"));
    reflexivity.
Defined.

Lemma to_netcdf_inr (ds : Dataset) (p : string) (st st' : Store) (u : unit) :
  to_netcdf ds p st = (inr u, st') -> file_get p (files st') = Some (NetCDF ds).
Proof.
  unfold to_netcdf, bind, emit. simpl. intros H. inversion H.
  simpl. rewrite String.eqb_refl. reflexivity.
Qed.

(** X21: a correlation that returns.  The dictionary names two different
    variables and [time_aggregation] is ['CORR']; the dataset returned
    holds one variable, called by the key of the dictionary, without a time
    axis and with the unit ['1'] as its only attribute, and it has been
    written under the output path of the first variable in which
    ['/<first variable>_'] is replaced by ['/<key>_']. *)
Theorem correlation_result (L : Lib) (infile base : string) (key varns : pyval)
    (kw : kwargs) (st st' : Store) (ds : Dataset)
    (Hkey : eq_str key "rnet" = false)
    (Hrun : calculate_diagnostic L infile (DDict [(key, varns)]) base kw st
            = (inr (Some ds), st')) :
  exists n0 n1 p1 da,
    kw_get "time_aggregation" kw = Some (VStr "CORR")
    /\ py_len varns = inr 2
    /\ subscript varns 0 = inr (VStr n0) /\ subscript varns 1 = inr (VStr n1)
    /\ n0 <> n1
    /\ get_outfile base infile kw = inr p1
    /\ ds = [(py_str key, da)]
    /\ da_axis da = AxNone
    /\ da_attrs da = [("units"%string, AStr "1")]
    /\ file_get (PyStr.replace ("/" ++ n0 ++ "_") ("/" ++ py_str key ++ "_") p1)
                (files st')
       = Some (NetCDF ds).
Proof.
  revert Hrun. unfold calculate_diagnostic. rewrite Hkey. intros H.
  apply bind_inr in H as (agg & s1 & Ha & H). apply lift_inr in Ha as [Ha ->].
  apply kw_item_inr in Ha.
  destruct (eq_str agg "CORR") eqn:Eagg; [|discriminate].
  apply eq_str_true in Eagg. subst agg.
  apply bind_inr in H as (n & s2 & Hn & H). apply lift_inr in Hn as [Hn ->].
  destruct (n =? 2) eqn:En; [|discriminate]. apply Nat.eqb_eq in En. subst n.
  cbn [negb] in H.
  apply bind_inr in H as (v0 & s3 & H0 & H). apply lift_inr in H0 as [H0 ->].
  apply bind_inr in H as (v1 & s4 & H1 & H). apply lift_inr in H1 as [H1 ->].
  destruct (py_eqb v0 v1) eqn:Ee; [discriminate|].
  apply bind_inr in H as (p1 & s5 & Hp & H). apply lift_inr in Hp as [Hp ->].
  apply bind_inr in H as (n0 & s6 & Hn0 & H). apply lift_inr in Hn0 as [Hn0 ->].
  apply bind_inr in H as (ds1 & s7 & _ & H).
  destruct (PyStr.path_split infile) as [path fn].
  apply bind_inr in H as (p2 & s8 & _ & H).
  apply bind_inr in H as (n1 & s9 & Hn1 & H). apply lift_inr in Hn1 as [Hn1 _].
  apply bind_inr in H as (ds2 & s10 & _ & H).
  apply bind_inr in H as (a1 & s11 & _ & H).
  apply bind_inr in H as (a2 & s12 & _ & H).
  apply bind_inr in H as (da & s13 & Hc & H). apply lift_inr in Hc as [Hc _].
  apply bind_inr in H as ([] & s14 & Hw & H).
  unfold ret in H. injection H as <- <-.
  apply to_netcdf_inr in Hw.
  destruct v0 as [| | |m0| |]; try discriminate. injection Hn0 as ->.
  destruct v1 as [| | |m1| |]; try discriminate. injection Hn1 as ->.
  exists n0, n1, p1, (with_attrs da [("units"%string, AStr "1")]).
  repeat split; try assumption; try reflexivity.
  - intros ->. simpl in Ee. rewrite String.eqb_refl in Ee. discriminate.
  - revert Hc. unfold apply_corr, ebind.
    destruct (time_axis a1); [discriminate|].
    destruct (time_axis a2); [discriminate|].
    destruct (_ && _); [|discriminate].
    destruct (emap _ _); [discriminate|].
    intros E. injection E as <-. reflexivity.
Qed.

(** The correlation of the sample temperature and precipitation. *)
Lemma correlation_result_witness :
  exists da,
    fst (calculate_diagnostic Sample.lib Sample.tas_file
           (DDict [(VStr "taspr", VList [VStr "tas"; VStr "pr"])]) "/out" kw_corr
           store_tas_pr)
    = inr (Some [("taspr"%string, da)])
    /\ da_axis da = AxNone
    /\ da_attrs da = [("units"%string, AStr "1")].
Proof.
  destruct (calculate_diagnostic Sample.lib Sample.tas_file
              (DDict [(VStr "taspr", VList [VStr "tas"; VStr "pr"])]) "/out" kw_corr
              store_tas_pr) as [[e|[ds|]] st'] eqn:E;
    try (vm_compute in E; discriminate).
  destruct (correlation_result Sample.lib Sample.tas_file "/out" (VStr "taspr")
              (VList [VStr "tas"; VStr "pr"]) kw_corr store_tas_pr st' ds eq_refl E)
    as (n0 & n1 & p1 & da & _ & _ & _ & _ & _ & _ & -> & Hax & Hat & _).
  exists da. repeat split; assumption.
Defined.

(** ** The time window *)


(** ** The standard deviation *)

Lemma map_nth_seq {A} (l : list A) (d : A) :
  map (fun t => nth t l d) (seq 0 (length l)) = l.
Proof.
  induction l as [|x l IH]; [reflexivity|].
  cbn [length seq map nth]. f_equal.
  rewrite <- seq_shift, map_map. exact IH.
Qed.

Lemma series_at_map_axis (f : list cell -> list cell) (n nlat nlon : nat)
    (d : list (grid cell)) (i j : nat) :
  i < nlat -> j < nlon -> length (f (series_at d i j)) = n ->
  series_at (map_axis f n nlat nlon d) i j = f (series_at d i j).
Proof.
  intros Hi Hj Hn.
  transitivity (map (fun t => nth t (f (series_at d i j)) NaN) (seq 0 n)).
  - unfold map_axis, series_at at 1. rewrite map_map.
    apply map_ext. intros t.
    rewrite (nth_map_seq _ nlat i [] Hi), (nth_map_seq _ nlon j NaN Hj).
    reflexivity.
  - rewrite <- Hn. apply map_nth_seq.
Qed.

(** X23: the STD aggregation of a field with as many slices as time
    steps leaves one slice without a time axis.  At a cell whose series
    has a missing time step the deviation of the library is taken of a
    series that is missing at every step, of the length of the time axis;
    at a cell whose complete series the library detrends to the same
    length, it is taken of the detrended series. *)
Theorem std_aggregation (L : Lib) (da : DataArray) (a : attrs) (st : Store)
    (ts : list Date)
    (Hax : da_axis da = AxTime ts)
    (Hlen : length ts = length (da_data da)) :
  exists sl,
    aggregate L (VStr "STD") da a st
    = (inr (mkDA AxNone (da_lat da) (da_lon da) [sl] (da_attrs da)
                 (da_encoding da), a), st)
    /\ forall i j, i < length (da_lat da) -> j < length (da_lon da) ->
         let xs := series_at (da_data da) i j in
         (any_nan xs = true ->
          nth j (nth i sl []) NaN = np_std L (repeat NaN (length ts)))
         /\ (any_nan xs = false ->
             length (signal_detrend L xs) = length ts ->
             nth j (nth i sl []) NaN = np_std L (signal_detrend L xs)).
Proof.
  eexists. split.
  - unfold aggregate. cbn [eq_str String.eqb Ascii.eqb Bool.eqb].
    unfold time_axis. rewrite Hax. reflexivity.
  - intros i j Hi Hj xs.
    assert (Hxs : length xs = length ts).
    { unfold xs, series_at. rewrite length_map. symmetry. exact Hlen. }
    cbn [with_data da_data da_lat da_lon].
    rewrite nth_reduce_axis by assumption. split.
    + intros Hn. rewrite series_at_map_axis; try assumption.
      * fold xs. rewrite (detrend_nan L xs Hn). f_equal.
        rewrite <- Hxs. clear. induction xs as [|x xs IH]; [reflexivity|].
        simpl. rewrite IH. reflexivity.
      * fold xs. rewrite (detrend_nan L xs Hn), length_map. exact Hxs.
    + intros Hn Hd. rewrite series_at_map_axis; try assumption.
      * fold xs. unfold detrend. rewrite Hn. reflexivity.
      * fold xs. unfold detrend. rewrite Hn. exact Hd.
Qed.

(** The deviation at a cell of the field with a gap. *)
Lemma std_aggregation_witness :
  exists sl,
    fst (aggregate Sample.lib (VStr "STD") tas_gap_K [] Sample.store0)
    = inr (mkDA AxNone grid_lat grid_lon [sl] [("units", AStr "degC")] [], [])
    /\ nth 0 (nth 0 sl []) NaN = np_std Sample.lib [NaN; NaN; NaN].
Proof.
  destruct (std_aggregation Sample.lib tas_gap_K [] Sample.store0
              Sample.months_2000_2001 eq_refl eq_refl) as (sl & E & H).
  exists sl. split; [rewrite E; reflexivity|].
  assert (H0 : 0 < length (da_lat tas_gap_K))
    by (apply Nat.ltb_lt; vm_compute; reflexivity).
  assert (H1 : 0 < length (da_lon tas_gap_K))
    by (apply Nat.ltb_lt; vm_compute; reflexivity).
  destruct (H 0 0 H0 H1) as [Hn _]. apply Hn. vm_compute. reflexivity.
Defined.
